(** * RideEase recommendation probe: the probe cycle and its summary

    A shallow embedding of [functions/scripts/probe.py]
    (class [RecommendationProbe]) and the properties of one probe cycle.

    The probe talks to an HTTP service, reads two clocks and draws random
    numbers.  All three are taken from an explicit [World]: the service is
    an arbitrary function from the position of a request in the run and
    the request itself to what the transport gives back, the clocks and
    the random source are arbitrary sequences with a cursor.  Every
    request that leaves the probe is appended to the world's [trace], so
    "which calls were issued" is a statement about that list.

    Python values that reach the code are parsed JSON documents or
    literals of the same shapes, so one type [json] stands for them.
    Exceptions are explicit: a computation ends in [Ok v] or [Raise e],
    and [try_except] is the [try: ... except Exception as e: ...] block.

    Not modelled: log lines, [time.sleep], the session headers and
    [kafka_config], none of which is read back by the cycle; and the
    interrupt signal, which is not an [Exception] and is outside every
    handler of the operations.

    A float is the rational number it stands for, or an infinity or
    NaN.  Clock readings and their differences are rational numbers of
    seconds; the sum and the quotients of the summary are rounded to
    binary64, to nearest and ties to even, as Python's floats are; a
    draw of [random.random()] is the dyadic rational it stands for.
    The sign of a zero is not kept. *)

From Stdlib Require Import List String Ascii Bool Arith ZArith QArith Qabs Lia.
Import ListNotations.

Set Warnings "-register-all".

Local Open Scope string_scope.
Local Open Scope list_scope.

(* ================================================================== *)
(** ** Python values *)

(** A parsed JSON document ([response.json()]) or a literal built by the
    probe.  [JObj] is a [dict]: [py_lookup] reads the first binding of a
    key and [py_len] counts distinct keys. *)
Inductive json : Type :=
| JNull
| JBool (b : bool)
| JInt (z : Z)
| JFloat (q : Q)
| JStr (s : string)
| JArr (items : list json)
| JObj (fields : list (string * json)).

(** A raised Python exception: its class name and [str(e)]. *)
Record Exn : Type := mkExn { exn_class : string; exn_msg : string }.

Definition str (e : Exn) : string := exn_msg e.

Inductive outcome (A : Type) : Type :=
| Ok (a : A)
| Raise (e : Exn).
Arguments Ok {A} a.
Arguments Raise {A} e.

Definition py_type_name (v : json) : string :=
  match v with
  | JNull => "NoneType"
  | JBool _ => "bool"
  | JInt _ => "int"
  | JFloat _ => "float"
  | JStr _ => "str"
  | JArr _ => "list"
  | JObj _ => "dict"
  end.

(** Truth value of a Python object, as [if x:] and [x or y] test it. *)
Definition py_truthy (v : json) : bool :=
  match v with
  | JNull => false
  | JBool b => b
  | JInt z => negb (z =? 0)%Z
  | JFloat q => negb (Qnum q =? 0)%Z
  | JStr s => negb (s =? "")
  | JArr items => match items with [] => false | _ :: _ => true end
  | JObj fields => match fields with [] => false | _ :: _ => true end
  end.

(** [a or b]. *)
Definition py_or (a b : json) : json := if py_truthy a then a else b.

Fixpoint py_lookup (fields : list (string * json)) (key : string) : option json :=
  match fields with
  | [] => None
  | (k, v) :: rest => if k =? key then Some v else py_lookup rest key
  end.

(** [d.get(key, default)]: only a [dict] has the method. *)
Definition py_get (d : json) (key : string) (default : json) : outcome json :=
  match d with
  | JObj fields =>
      match py_lookup fields key with
      | Some v => Ok v
      | None => Ok default
      end
  | _ => Raise (mkExn "AttributeError"
                 ("'" ++ py_type_name d ++ "' object has no attribute 'get'"))
  end.

(** [len(x)]: strings, lists and dicts have a length. *)
Definition py_len (v : json) : outcome nat :=
  match v with
  | JStr s => Ok (String.length s)
  | JArr items => Ok (List.length items)
  | JObj fields => Ok (List.length (nodup string_dec (map fst fields)))
  | _ => Raise (mkExn "TypeError"
                 ("object of type '" ++ py_type_name v ++ "' has no len()"))
  end.

(** [x[0]]. A dict parsed from JSON has string keys only, so the
    integer key [0] is never found. *)
Definition py_first (v : json) : outcome json :=
  match v with
  | JArr (x :: _) => Ok x
  | JArr [] => Raise (mkExn "IndexError" "list index out of range")
  | JStr (String c _) => Ok (JStr (String c EmptyString))
  | JStr EmptyString => Raise (mkExn "IndexError" "string index out of range")
  | JObj _ => Raise (mkExn "KeyError" "0")
  | _ => Raise (mkExn "TypeError"
                 ("'" ++ py_type_name v ++ "' object is not subscriptable"))
  end.

(** Looking up the bound method [x.get] before its arguments are
    evaluated. *)
Definition py_has_get (v : json) : outcome unit :=
  match v with
  | JObj _ => Ok tt
  | _ => Raise (mkExn "AttributeError"
                 ("'" ++ py_type_name v ++ "' object has no attribute 'get'"))
  end.

(* ================================================================== *)
(** ** Floats *)

(** A Python [float]: a binary64 value. *)
Inductive pyfloat : Type :=
| Finite (value : Q)
| Infinite (negative : bool)
| NotANumber.

(** [n / d] rounded to the nearest integer, a tie going to the even
    one; [0 <= n] and [0 < d]. *)
Definition round_half_even (n d : Z) : Z :=
  let fl := (n / d)%Z in
  let r := (n mod d)%Z in
  match (2 * r ?= d)%Z with
  | Lt => fl
  | Gt => (fl + 1)%Z
  | Eq => if Z.even fl then fl else (fl + 1)%Z
  end.

(** The exponent [e] with [2^e <= num/den < 2^(e+1)]. *)
Definition log2_floor (num den : positive) : Z :=
  let e0 := (Z.log2 (Zpos num) - Z.log2 (Zpos den))%Z in
  let reaches :=
    if (0 <=? e0)%Z then (Zpos den * 2 ^ e0 <=? Zpos num)%Z
    else (Zpos den <=? Zpos num * 2 ^ (- e0))%Z in
  if reaches then e0 else (e0 - 1)%Z.

(** The binary64 value nearest to [num/den]: 53 significant bits, the
    last of weight [2^p] with [p] no less than -1074 (the subnormal
    range), and an infinity from [2^1024 - 2^970] on. *)
Definition round64_pos (num den : positive) : pyfloat :=
  let e := log2_floor num den in
  let p := Z.max (e - 52) (-1074) in
  let m := if (0 <=? p)%Z
           then round_half_even (Zpos num) (Zpos den * 2 ^ p)
           else round_half_even (Zpos num * 2 ^ (- p)) (Zpos den) in
  if ((971 <? p) || ((p =? 971) && (2 ^ 53 <=? m)))%Z
  then Infinite false
  else Finite (if (0 <=? p)%Z then inject_Z (m * 2 ^ p)
               else m # Z.to_pos (2 ^ (- p))).

Definition float_neg (x : pyfloat) : pyfloat :=
  match x with
  | Finite q => Finite (- q)
  | Infinite s => Infinite (negb s)
  | NotANumber => NotANumber
  end.

(** Rounding a real result to binary64. *)
Definition round64 (q : Q) : pyfloat :=
  match Qnum q with
  | Z0 => Finite 0
  | Zpos n => round64_pos n (Qden q)
  | Zneg n => float_neg (round64_pos n (Qden q))
  end.

(** [x + y] on floats. *)
Definition float_add (x y : pyfloat) : pyfloat :=
  match x, y with
  | Finite a, Finite b => round64 (a + b)
  | Finite _, Infinite s => Infinite s
  | Infinite s, Finite _ => Infinite s
  | Infinite s, Infinite t => if Bool.eqb s t then Infinite s else NotANumber
  | _, _ => NotANumber
  end.

(* ================================================================== *)
(** ** The HTTP session, the clocks and the random source *)

Inductive Method : Type := GET | POST.

(** A request as the probe hands it to [self.session]: the url is
    [base ++ path] (the f-string [f"{self.api_base_url}/track"]), kept
    as its two parts. *)
Record Request : Type := mkRequest {
  req_method : Method;
  req_base : string;
  req_path : string;
  req_json : option json;
  req_timeout : Z
}.

(** What the session hands back.  [status_code] is the HTTP status,
    [http_error] the text of the [HTTPError] that [raise_for_status]
    builds for it, [body] the parsed body when it parses and
    [json_error] the text of the decoding error when it does not,
    [elapsed] is [response.elapsed.total_seconds()]. *)
Record Response : Type := mkResponse {
  status_code : Z;
  http_error : string;
  body : option json;
  json_error : string;
  elapsed : Q
}.

(** A request either fails in transport (connection refused, timeout:
    [session.get]/[session.post] raise) or is answered. *)
Inductive HttpOutcome : Type :=
| TransportError (e : Exn)
| Answered (r : Response).

Record World : Type := mkWorld {
  server : nat -> Request -> HttpOutcome;
  clock : nat -> Q;
  wall : nat -> string;
  rand : nat -> N;
  trace : list Request;
  clock_reads : nat;
  wall_reads : nat;
  rand_draws : nat
}.

(** Computations that read and advance the world and may raise. *)
Definition M (A : Type) : Type := World -> outcome A * World.

Definition ret {A} (a : A) : M A := fun w => (Ok a, w).

Definition raise {A} (e : Exn) : M A := fun w => (Raise e, w).

Definition bind {A B} (m : M A) (k : A -> M B) : M B :=
  fun w =>
    match m w with
    | (Ok a, w') => k a w'
    | (Raise e, w') => (Raise e, w')
    end.

Definition lift {A} (o : outcome A) : M A := fun w => (o, w).

(** [try: body  except Exception as e: handler e]. *)
Definition try_except {A} (body : M A) (handler : Exn -> M A) : M A :=
  fun w =>
    match body w with
    | (Ok a, w') => (Ok a, w')
    | (Raise e, w') => handler e w'
    end.

Declare Scope probe_scope.
Delimit Scope probe_scope with probe.
Notation "x <- m ;; k" := (bind m (fun x => k))
  (at level 61, m at next level, right associativity) : probe_scope.
Notation "m ;;; k" := (bind m (fun _ => k))
  (at level 61, right associativity) : probe_scope.
Local Open Scope probe_scope.

(** The four ways the world moves on. *)
Definition with_call (r : Request) (w : World) : World :=
  mkWorld (server w) (clock w) (wall w) (rand w) (trace w ++ [r])
          (clock_reads w) (wall_reads w) (rand_draws w).

Definition tick_clock (w : World) : World :=
  mkWorld (server w) (clock w) (wall w) (rand w) (trace w)
          (S (clock_reads w)) (wall_reads w) (rand_draws w).

Definition tick_wall (w : World) : World :=
  mkWorld (server w) (clock w) (wall w) (rand w) (trace w)
          (clock_reads w) (S (wall_reads w)) (rand_draws w).

Definition tick_rand (w : World) : World :=
  mkWorld (server w) (clock w) (wall w) (rand w) (trace w)
          (clock_reads w) (wall_reads w) (S (rand_draws w)).

(** The answer of the service to [r] sent from [w]. *)
Definition answer (w : World) (r : Request) : HttpOutcome :=
  server w (List.length (trace w)) r.

(** [self.session.get/post]: the request goes on the trace and the
    service decides the outcome. *)
Definition send (r : Request) : M Response :=
  fun w =>
    match answer w r with
    | TransportError e => (Raise e, with_call r w)
    | Answered resp => (Ok resp, with_call r w)
    end.

(** [response.raise_for_status()] raises for the client and server
    error classes, [400 <= status_code < 600], and only for them: any
    other status, whether 2xx or not, passes. *)
Definition raise_for_status (r : Response) : M unit :=
  if ((400 <=? status_code r) && (status_code r <? 600))%Z
  then raise (mkExn "HTTPError" (http_error r))
  else ret tt.

(** [response.json()]. *)
Definition response_json (r : Response) : M json :=
  match body r with
  | Some j => ret j
  | None => raise (mkExn "JSONDecodeError" (json_error r))
  end.

(** [time.time()]. *)
Definition time_time : M Q :=
  fun w => (Ok (clock w (clock_reads w)), tick_clock w).

(** [datetime.now().isoformat()]. *)
Definition datetime_now_isoformat : M string :=
  fun w => (Ok (wall w (wall_reads w)), tick_wall w).

(** One raw draw of the generator. *)
Definition draw : M N :=
  fun w => (Ok (rand w (rand_draws w)), tick_rand w).

(** A raw draw brought below [n]. *)
Definition below (r : N) (n : nat) : nat := N.to_nat (r mod N.of_nat n).

(** [random.choice(seq)]: an element at a drawn position; an empty
    sequence raises [IndexError] before anything is drawn. *)
Definition random_choice {A} (seq : list A) : M A :=
  match seq with
  | [] => raise (mkExn "IndexError" "Cannot choose from an empty sequence")
  | x :: _ =>
      r <- draw ;;
      ret (nth (below r (List.length seq)) seq x)
  end.

Fixpoint remove_nth {A} (i : nat) (l : list A) {struct l} : list A :=
  match l with
  | [] => []
  | h :: t =>
      match i with
      | O => t
      | S j => h :: remove_nth j t
      end
  end.

(** The [k] draws of [random.sample]: each takes an element at a drawn
    position of what is left of the population, so no position of the
    population is taken twice. *)
Fixpoint sample_from {A} (pool : list A) (k : nat) : M (list A) :=
  match k with
  | O => ret []
  | S k' =>
      match pool with
      | [] => ret []
      | x :: _ =>
          r <- draw ;;
          let j := below r (List.length pool) in
          rest <- sample_from (remove_nth j pool) k' ;;
          ret (nth j pool x :: rest)
      end
  end.

(** [random.sample(population, k)]. *)
Definition random_sample {A} (population : list A) (k : nat) : M (list A) :=
  if (List.length population <? k)%nat
  then raise (mkExn "ValueError" "Sample larger than population or is negative")
  else sample_from population k.

(** [random.random()] returns [n / 2^53] for an integer
    [0 <= n < 2^53]. *)
Definition two_53 : positive := 9007199254740992.

Definition unit_float (r : N) : Q := Z.of_N r mod Zpos two_53 # two_53.

Definition random_random : M Q :=
  r <- draw ;;
  ret (unit_float r).

(** [random.randint(a, b)]: an integer of [a..b], both ends included. *)
Definition random_randint (a b : Z) : M Z :=
  if (b <? a)%Z
  then raise (mkExn "ValueError" "empty range for randrange()")
  else r <- draw ;; ret (a + Z.of_N r mod (b - a + 1))%Z.

(** The double that the literal [0.7] denotes: [6305039478318694 / 2^53]. *)
Definition float_0_7 : Q := 6305039478318694 # two_53.

(** [x > y] on floats. *)
Definition Qgtb (x y : Q) : bool := negb (Qle_bool x y).

(* ================================================================== *)
(** ** Result records

    Each result is a Python [dict] with a fixed set of keys per shape.
    A field of type [option] is [None] when the shape has no such key;
    the one exception is [response_time] of a health or recommendation
    result, a key that is always there and holds Python's [None] on
    failure. *)

Module Health.
Record t : Type := mk {
  status : string;
  response_time : option Q;
  data : option json;
  error : option string
}.
End Health.

Module Rec.
Record t : Type := mk {
  status : string;
  response_time : option Q;
  recommendations_count : nat;
  model_used : option json;
  request_id : option json;
  latency : option json;
  data : option json;
  error : option string
}.
End Rec.

Module Track.
Record t : Type := mk {
  status : string;
  interaction : option json;
  response_time : option Q;
  error : option string
}.
End Track.

Module Compare.
Record t : Type := mk {
  status : string;
  models_compared : option nat;
  total_time : option json;
  data : option json;
  error : option string
}.
End Compare.

(** One element of [recommendation_results]. *)
Module Entry.
Record t : Type := mk {
  user_id : string;
  result : Rec.t
}.
End Entry.

(** One element of [results['interactions']]; [rating] is the key that
    only a "rate" entry has. *)
Module Interaction.
Record t : Type := mk {
  user_id : string;
  item_id : json;
  rating : option Z;
  result : Track.t
}.
End Interaction.

Module Summary.
Record t : Type := mk {
  status : string;
  reason : option string;
  cycle_time : option Q;
  total_requests : option nat;
  successful_recommendations : option nat;
  personalized_responses : option nat;
  personalization_rate : option pyfloat;
  avg_response_time : option pyfloat
}.
End Summary.

(** The cycle report; [model_comparison] is [None] while it is still
    the empty dict [{}] the report starts with. *)
Module Report.
Record t : Type := mk {
  cycle_start : string;
  health_check : Health.t;
  recommendations : list Entry.t;
  interactions : list Interaction.t;
  model_comparison : option Compare.t;
  summary : Summary.t
}.
End Report.

(* ================================================================== *)
(** ** The probe *)

(** [s.rstrip('/')]. *)
Fixpoint rstrip_slash (s : string) : string :=
  match s with
  | EmptyString => EmptyString
  | String c rest =>
      match rstrip_slash rest with
      | EmptyString => if Ascii.eqb c "/"%char then EmptyString
                       else String c EmptyString
      | rest' => String c rest'
      end
  end.

Record RecommendationProbe : Type := mkProbe {
  api_base_url : string;
  test_users : list string;
  test_items : list string
}.

(** [RecommendationProbe.__init__]. *)
Definition init (api_base_url : string) : RecommendationProbe :=
  {| api_base_url := rstrip_slash api_base_url;
     test_users :=
       ["user_001"; "user_002"; "user_003"; "user_004"; "user_005";
        "user_006"; "user_007"; "user_008"; "user_009"; "user_010"];
     test_items :=
       ["ride_001"; "ride_002"; "ride_003"; "ride_004"; "ride_005";
        "ride_006"; "ride_007"; "ride_008"; "ride_009"; "ride_010"] |}.

Section Operations.

Variable self : RecommendationProbe.

Definition get_request (path : string) (timeout : Z) : Request :=
  mkRequest GET (api_base_url self) path None timeout.

Definition post_request (path : string) (payload : json) (timeout : Z)
  : Request :=
  mkRequest POST (api_base_url self) path (Some payload) timeout.

Definition session_get (path : string) (timeout : Z) : M Response :=
  send (get_request path timeout).

Definition session_post (path : string) (payload : json) (timeout : Z)
  : M Response :=
  send (post_request path payload timeout).

(** The four requests of the probe. *)
Definition health_request : Request := get_request "/health" 10.

Definition recommend_payload (user_id : string) (options : json) : json :=
  JObj [("userId", JStr user_id);
        ("options", py_or options (JObj []))].

Definition recommend_request (user_id : string) (options : json) : Request :=
  post_request "/recommend" (recommend_payload user_id options) 30.

Definition track_payload (user_id : string) (item_id : json)
           (interaction_type timestamp : string) : json :=
  JObj [("userId", JStr user_id);
        ("itemId", item_id);
        ("interactionType", JStr interaction_type);
        ("metadata", JObj [("source", JStr "probe");
                           ("timestamp", JStr timestamp)])].

Definition track_request (user_id : string) (item_id : json)
           (interaction_type timestamp : string) : Request :=
  post_request "/track"
    (track_payload user_id item_id interaction_type timestamp) 10.

Definition compare_payload (user_id : string) : json :=
  JObj [("userId", JStr user_id);
        ("options", JObj [("numRecommendations", JInt 5)])].

Definition compare_request (user_id : string) : Request :=
  post_request "/models/compare" (compare_payload user_id) 60.

Definition health_check : M Health.t :=
  try_except
    (response <- session_get "/health" 10 ;;
     raise_for_status response ;;;
     health_data <- response_json response ;;
     ret {| Health.status := "healthy";
            Health.response_time := Some (elapsed response);
            Health.data := Some health_data;
            Health.error := None |})
    (fun e =>
       ret {| Health.status := "unhealthy";
              Health.error := Some (str e);
              Health.response_time := None;
              Health.data := None |}).

Definition get_recommendations (user_id : string) (options : json)
  : M Rec.t :=
  try_except
    (let payload := recommend_payload user_id options in
     start_time <- time_time ;;
     response <- session_post "/recommend" payload 30 ;;
     end_time <- time_time ;;
     let response_time := end_time - start_time in
     raise_for_status response ;;;
     data <- response_json response ;;
     recommendations <- lift (py_get data "recommendations" (JArr [])) ;;
     count <- lift (py_len recommendations) ;;
     model <- lift (py_get data "model" (JStr "unknown")) ;;
     requestId <- lift (py_get data "requestId" (JStr "unknown")) ;;
     latency <- lift (py_get data "latency" (JInt 0)) ;;
     ret {| Rec.status := "success";
            Rec.response_time := Some response_time;
            Rec.recommendations_count := count;
            Rec.model_used := Some model;
            Rec.request_id := Some requestId;
            Rec.latency := Some latency;
            Rec.data := Some data;
            Rec.error := None |})
    (fun e =>
       ret {| Rec.status := "error";
              Rec.error := Some (str e);
              Rec.response_time := None;
              Rec.recommendations_count := 0;
              Rec.model_used := None;
              Rec.request_id := None;
              Rec.latency := None;
              Rec.data := None |}).

Definition track_interaction (user_id : string) (item_id : json)
           (interaction_type : string) : M Track.t :=
  try_except
    (timestamp <- datetime_now_isoformat ;;
     let payload :=
       track_payload user_id item_id interaction_type timestamp in
     response <- session_post "/track" payload 10 ;;
     raise_for_status response ;;;
     data <- response_json response ;;
     interaction <- lift (py_get data "interaction" (JObj [])) ;;
     ret {| Track.status := "success";
            Track.interaction := Some interaction;
            Track.response_time := Some (elapsed response);
            Track.error := None |})
    (fun e =>
       ret {| Track.status := "error";
              Track.error := Some (str e);
              Track.interaction := None;
              Track.response_time := None |}).

Definition compare_models (user_id : string) : M Compare.t :=
  try_except
    (let payload := compare_payload user_id in
     response <- session_post "/models/compare" payload 60 ;;
     raise_for_status response ;;;
     data <- response_json response ;;
     comparison <- lift (py_get data "comparison" (JObj [])) ;;
     models_compared <- lift (py_len comparison) ;;
     total_time <- lift (py_get data "totalComparisonTime" (JInt 0)) ;;
     ret {| Compare.status := "success";
            Compare.models_compared := Some models_compared;
            Compare.total_time := Some total_time;
            Compare.data := Some data;
            Compare.error := None |})
    (fun e =>
       ret {| Compare.status := "error";
              Compare.error := Some (str e);
              Compare.models_compared := None;
              Compare.total_time := None;
              Compare.data := None |}).

End Operations.

(* ================================================================== *)
(** ** The probe cycle *)

(** [sum(...)] over a generator of floats, from the integer [0]: the
    additions are made from left to right, each rounded.  (From Python
    3.12 on [sum] compensates the rounding errors of the additions,
    which can move the last bits of a sum of three or more terms.) *)
Definition py_sum (l : list Q) : pyfloat :=
  fold_left (fun acc t => float_add acc (Finite t)) l (Finite 0).

Definition of_count (n : nat) : Q := inject_Z (Z.of_nat n).

(** [a / b] for two counts: the exact quotient, rounded once.  (Python
    raises [OverflowError] where the quotient is too large for a float,
    which the quotient of two list lengths is not.) *)
Definition py_int_div (a b : nat) : outcome pyfloat :=
  match b with
  | O => Raise (mkExn "ZeroDivisionError" "division by zero")
  | S _ => Ok (round64 (of_count a / of_count b))
  end.

(** [x / n] for a float and a count: the count is converted to a float
    and the quotient is rounded.  (The conversion is exact below 2^53
    and is refused by Python from 2^1024 on, a length no list has.) *)
Definition py_float_div (x : pyfloat) (n : nat) : outcome pyfloat :=
  match n with
  | O => Raise (mkExn "ZeroDivisionError" "float division by zero")
  | S _ =>
      Ok (match round64 (of_count n), x with
          | Finite d, Finite a => round64 (a / d)
          | Finite _, Infinite s => Infinite s
          | Infinite _, Finite _ => Finite 0
          | _, _ => NotANumber
          end)
  end.

(** [r['result']['status'] == 'success']. *)
Definition is_success (r : Entry.t) : bool :=
  Rec.status (Entry.result r) =? "success".

(** [... and r['result']['recommendations_count'] > 0]. *)
Definition is_personalized (r : Entry.t) : bool :=
  is_success r && (0 <? Rec.recommendations_count (Entry.result r))%nat.

(** [sum(1 for r in recommendation_results if ...)]. *)
Definition count_if (f : Entry.t -> bool) (l : list Entry.t) : nat :=
  list_sum (map (fun _ => 1%nat) (filter f l)).

(** The generator
    [r['result']['response_time'] for r in ... if r['result']['response_time']]:
    [None] and [0.0] are both false. *)
Fixpoint truthy_response_times (l : list Entry.t) : list Q :=
  match l with
  | [] => []
  | r :: rest =>
      match Rec.response_time (Entry.result r) with
      | Some t => if negb (Qnum t =? 0)%Z
                  then t :: truthy_response_times rest
                  else truthy_response_times rest
      | None => truthy_response_times rest
      end
  end.

(** Step 4 of [run_probe_cycle]: the [summary] dict. *)
Definition make_summary (cycle_time : Q) (recommendation_results : list Entry.t)
  : outcome Summary.t :=
  let successful_recommendations := count_if is_success recommendation_results in
  let personalized_responses := count_if is_personalized recommendation_results in
  let nonempty := match recommendation_results with [] => false | _ => true end in
  match (if nonempty
         then py_int_div personalized_responses
                         (List.length recommendation_results)
         else Ok (Finite 0)) with
  | Raise e => Raise e
  | Ok rate =>
      match (if nonempty
             then py_float_div
                    (py_sum (truthy_response_times recommendation_results))
                    (List.length recommendation_results)
             else Ok (Finite 0)) with
      | Raise e => Raise e
      | Ok avg =>
          Ok {| Summary.status := "completed";
                Summary.reason := None;
                Summary.cycle_time := Some cycle_time;
                Summary.total_requests :=
                  Some (List.length recommendation_results + 1)%nat;
                Summary.successful_recommendations :=
                  Some successful_recommendations;
                Summary.personalized_responses := Some personalized_responses;
                Summary.personalization_rate := Some rate;
                Summary.avg_response_time := Some avg |}
      end
  end.

(** [{'status': 'failed', 'reason': 'API unhealthy'}]. *)
Definition failed_summary : Summary.t :=
  {| Summary.status := "failed";
     Summary.reason := Some "API unhealthy";
     Summary.cycle_time := None;
     Summary.total_requests := None;
     Summary.successful_recommendations := None;
     Summary.personalized_responses := None;
     Summary.personalization_rate := None;
     Summary.avg_response_time := None |}.

Section Cycle.

Variable self : RecommendationProbe.

(** [rec_result['data']]. *)
Definition rec_data (rec_result : Rec.t) : outcome json :=
  match Rec.data rec_result with
  | Some d => Ok d
  | None => Raise (mkExn "KeyError" "'data'")
  end.

(** The two dicts appended to [results['interactions']]. *)
Definition view_entry (user_id : string) (item_id : json)
           (interaction_result : Track.t) : Interaction.t :=
  {| Interaction.user_id := user_id;
     Interaction.item_id := item_id;
     Interaction.rating := None;
     Interaction.result := interaction_result |}.

Definition rate_entry (user_id : string) (item_id : json) (rating : Z)
           (interaction_result : Track.t) : Interaction.t :=
  {| Interaction.user_id := user_id;
     Interaction.item_id := item_id;
     Interaction.rating := Some rating;
     Interaction.result := interaction_result |}.

(** The "rate" branch, after the "view" entry has been appended. *)
Definition simulate_rating (user_id : string) (item_id : json)
           (interactions : list Interaction.t) : M (list Interaction.t) :=
  r <- random_random ;;
  if Qgtb r float_0_7
  then
    rating <- random_randint 1 5 ;;
    interaction_result <- track_interaction self user_id item_id "rate" ;;
    ret (interactions ++ [rate_entry user_id item_id rating interaction_result])
  else ret interactions.

(** The [if rec_result['status'] == 'success' and ...] block of the
    loop body. *)
Definition track_some_interactions (user_id : string) (rec_result : Rec.t)
           (interactions : list Interaction.t) : M (list Interaction.t) :=
  if (Rec.status rec_result =? "success")
     && (0 <? Rec.recommendations_count rec_result)%nat
  then
    data <- lift (rec_data rec_result) ;;
    recommendations <- lift (py_get data "recommendations" (JArr [])) ;;
    if py_truthy recommendations
    then
      first <- lift (py_first recommendations) ;;
      lift (py_has_get first) ;;;
      fallback <- random_choice (test_items self) ;;
      item_id <- lift (py_get first "itemId" (JStr fallback)) ;;
      interaction_result <- track_interaction self user_id item_id "view" ;;
      simulate_rating user_id item_id
        (interactions ++ [view_entry user_id item_id interaction_result])
    else ret interactions
  else ret interactions.

(** The options of the recommendation request of the loop. *)
Definition probe_options (location timeOfDay : string) : json :=
  JObj [("numRecommendations", JInt 10);
        ("context", JObj [("location", JStr location);
                          ("timeOfDay", JStr timeOfDay)])].

(** One pass of [for user_id in test_users:]. *)
Definition probe_user (user_id : string)
           (st : list Entry.t * list Interaction.t)
  : M (list Entry.t * list Interaction.t) :=
  location <- random_choice ["NYC"; "SF"; "LA"; "Chicago"] ;;
  timeOfDay <- random_choice ["morning"; "afternoon"; "evening"] ;;
  rec_result <-
    get_recommendations self user_id (probe_options location timeOfDay) ;;
  let recommendation_results :=
    fst st ++ [{| Entry.user_id := user_id; Entry.result := rec_result |}] in
  interactions <- track_some_interactions user_id rec_result (snd st) ;;
  ret (recommendation_results, interactions).

Fixpoint probe_users (users : list string)
         (st : list Entry.t * list Interaction.t)
  : M (list Entry.t * list Interaction.t) :=
  match users with
  | [] => ret st
  | user_id :: rest =>
      st' <- probe_user user_id st ;;
      probe_users rest st'
  end.

Definition run_probe_cycle : M Report.t :=
  cycle_start <- time_time ;;
  started <- datetime_now_isoformat ;;
  health <- health_check self ;;
  if negb (Health.status health =? "healthy")
  then
    ret {| Report.cycle_start := started;
           Report.health_check := health;
           Report.recommendations := [];
           Report.interactions := [];
           Report.model_comparison := None;
           Report.summary := failed_summary |}
  else
    sampled <- random_sample (test_users self)
                             (Nat.min 5 (List.length (test_users self))) ;;
    st <- probe_users sampled ([], []) ;;
    let recommendation_results := fst st in
    comparison_user <- random_choice sampled ;;
    comparison <- compare_models self comparison_user ;;
    cycle_end <- time_time ;;
    let cycle_time := cycle_end - cycle_start in
    summary <- lift (make_summary cycle_time recommendation_results) ;;
    ret {| Report.cycle_start := started;
           Report.health_check := health;
           Report.recommendations := recommendation_results;
           Report.interactions := snd st;
           Report.model_comparison := Some comparison;
           Report.summary := summary |}.

End Cycle.

(* ================================================================== *)
(** ** Reading a trace *)

(** The string under [key] in the JSON body of a request. *)
Definition payload_string (key : string) (r : Request) : option string :=
  match req_json r with
  | Some (JObj fields) =>
      match py_lookup fields key with
      | Some (JStr s) => Some s
      | _ => None
      end
  | _ => None
  end.

Definition is_call_to (path : string) (r : Request) : bool :=
  req_path r =? path.

(** An interaction-tracking call of the given kind ("view" or "rate"). *)
Definition is_track_call (kind : string) (r : Request) : bool :=
  is_call_to "/track" r &&
  match payload_string "interactionType" r with
  | Some k => k =? kind
  | None => false
  end.

(** A call made on behalf of the given user. *)
Definition is_for_user (user_id : string) (r : Request) : bool :=
  match payload_string "userId" r with
  | Some u => u =? user_id
  | None => false
  end.

Definition count_calls (f : Request -> bool) (calls : list Request) : nat :=
  List.length (filter f calls).

(** The item a successful result leads the cycle to track: the
    ['itemId'] of the first element of ['recommendations'] when that
    element is an object with the field, an element of the item pool
    when it is an object without it. *)
Definition first_item_id (self : RecommendationProbe) (res : Rec.t)
           (item_id : json) : Prop :=
  exists fields first rest,
    Rec.data res = Some (JObj fields) /\
    py_lookup fields "recommendations" = Some (JArr (JObj first :: rest)) /\
    match py_lookup first "itemId" with
    | Some v => item_id = v
    | None => exists fallback,
        In fallback (test_items self) /\ item_id = JStr fallback
    end.

(** What one pass of the loop leaves behind for [user_id]: its entry of
    [recommendation_results], the entries it appended to
    [results['interactions']] and the requests it sent. *)
Inductive user_pass (self : RecommendationProbe) (user_id : string)
  : Entry.t -> list Interaction.t -> list Request -> Prop :=
| pass_untracked res location timeOfDay :
    is_personalized (Entry.mk user_id res) = false ->
    user_pass self user_id (Entry.mk user_id res) []
      [recommend_request self user_id (probe_options location timeOfDay)]
| pass_viewed res location timeOfDay item_id viewed ts :
    is_personalized (Entry.mk user_id res) = true ->
    first_item_id self res item_id ->
    user_pass self user_id (Entry.mk user_id res)
      [view_entry user_id item_id viewed]
      [recommend_request self user_id (probe_options location timeOfDay);
       track_request self user_id item_id "view" ts]
| pass_rated res location timeOfDay item_id viewed ts rating rated ts' :
    is_personalized (Entry.mk user_id res) = true ->
    first_item_id self res item_id ->
    (1 <= rating <= 5)%Z ->
    user_pass self user_id (Entry.mk user_id res)
      [view_entry user_id item_id viewed;
       rate_entry user_id item_id rating rated]
      [recommend_request self user_id (probe_options location timeOfDay);
       track_request self user_id item_id "view" ts;
       track_request self user_id item_id "rate" ts'].

(* ================================================================== *)
(** ** Vocabulary of the statements *)

(** How a computation moved the world: the requests it sent, in order,
    and the number of raw draws it took; the random source itself is
    never replaced. *)
Definition moved (calls : list Request) (draws : nat) (w w' : World) : Prop :=
  trace w' = trace w ++ calls /\
  rand w' = rand w /\
  rand_draws w' = (rand_draws w + draws)%nat.

(** The value of [data.get(key, default)] for a body that is an object. *)
Definition field_or (fields : list (string * json)) (key : string)
           (default : json) : json :=
  match py_lookup fields key with
  | Some v => v
  | None => default
  end.

(** What [get_recommendations] guarantees about a 'success' record: its
    [data] is the body, a JSON object, and its count is the length of
    what that object holds under 'recommendations'. *)
Definition counted_from_data (res : Rec.t) : Prop :=
  Rec.status res = "success" ->
  exists fields,
    Rec.data res = Some (JObj fields) /\
    py_len (field_or fields "recommendations" (JArr []))
    = Ok (Rec.recommendations_count res).

(** What the loop keeps of one pass. *)
Record Pass : Type := mkPass {
  pass_entry : Entry.t;
  pass_block : list Interaction.t;
  pass_calls : list Request
}.

Definition pass_ok (self : RecommendationProbe) (user_id : string) (p : Pass)
  : Prop :=
  user_pass self user_id (pass_entry p) (pass_block p) (pass_calls p).

(** The shape of a cycle that got past the health gate. *)
Definition completed_shape (self : RecommendationProbe) (w w' : World)
           (r : Report.t) (sampled : list string) (passes : list Pass)
           (calls : list Request) : Prop :=
  List.length sampled = Nat.min 5 (List.length (test_users self)) /\
  incl sampled (test_users self) /\
  (NoDup (test_users self) -> NoDup sampled) /\
  Forall2 (pass_ok self) sampled passes /\
  Report.recommendations r = map pass_entry passes /\
  Report.interactions r = List.concat (map pass_block passes) /\
  (exists comparison_user,
      In comparison_user sampled /\
      calls = health_request self
              :: List.concat (map pass_calls passes)
              ++ [compare_request self comparison_user]) /\
  (exists draws, moved calls draws w w') /\
  (exists cycle_time,
      make_summary cycle_time (Report.recommendations r)
      = Ok (Report.summary r)) /\
  Health.status (Report.health_check r) = "healthy" /\
  Report.model_comparison r <> None.

(** The shape of a cycle stopped at the health gate. *)
Definition failed_shape (self : RecommendationProbe) (w w' : World)
           (r : Report.t) : Prop :=
  Report.summary r = failed_summary /\
  Report.recommendations r = [] /\
  Report.interactions r = [] /\
  Report.model_comparison r = None /\
  Health.status (Report.health_check r) <> "healthy" /\
  moved [health_request self] 0 w w'.

(** The entries one sampled user, with result entry [e], can leave in
    [results['interactions']]: none, one "view" entry, or a "view" entry
    followed by a "rate" entry with its 'rating' key; entries are there
    only when the user's result is personalized. *)
Definition interactions_of_user (e : Entry.t) (block : list Interaction.t)
  : Prop :=
  block = [] \/
  (is_personalized e = true /\
   exists item_id viewed,
     block = [{| Interaction.user_id := Entry.user_id e;
                 Interaction.item_id := item_id;
                 Interaction.rating := None;
                 Interaction.result := viewed |}] \/
     exists rating rated,
       (1 <= rating <= 5)%Z /\
       block = [{| Interaction.user_id := Entry.user_id e;
                   Interaction.item_id := item_id;
                   Interaction.rating := None;
                   Interaction.result := viewed |};
                {| Interaction.user_id := Entry.user_id e;
                   Interaction.item_id := item_id;
                   Interaction.rating := Some rating;
                   Interaction.result := rated |}]).

(** A "view" tracking call made for [user_id]. *)
Definition is_view_for (user_id : string) (q : Request) : bool :=
  is_track_call "view" q && is_for_user user_id q.

(** Any tracking call made for [user_id]. *)
Definition is_track_for (user_id : string) (q : Request) : bool :=
  is_call_to "/track" q && is_for_user user_id q.

(** [s] ends with a slash. *)
Fixpoint ends_with_slash (s : string) : bool :=
  match s with
  | EmptyString => false
  | String c rest =>
      match rest with
      | EmptyString => Ascii.eqb c "/"%char
      | String _ _ => ends_with_slash rest
      end
  end.

(** A run of [k] slashes. *)
Fixpoint slashes (k : nat) : string :=
  match k with
  | O => EmptyString
  | S k' => String "/"%char (slashes k')
  end.

(** The two shapes of a recommendation result. *)
Definition rec_success (response_time : Q) (fields : list (string * json))
           (count : nat) : Rec.t :=
  {| Rec.status := "success";
     Rec.response_time := Some response_time;
     Rec.recommendations_count := count;
     Rec.model_used := Some (field_or fields "model" (JStr "unknown"));
     Rec.request_id := Some (field_or fields "requestId" (JStr "unknown"));
     Rec.latency := Some (field_or fields "latency" (JInt 0));
     Rec.data := Some (JObj fields);
     Rec.error := None |}.

Definition rec_failure (message : string) : Rec.t :=
  {| Rec.status := "error";
     Rec.error := Some message;
     Rec.response_time := None;
     Rec.recommendations_count := 0;
     Rec.model_used := None;
     Rec.request_id := None;
     Rec.latency := None;
     Rec.data := None |}.

(** The answer to a request is usable: it came, its status is not an
    error class, and its body parses to a JSON object. *)
Definition answered_object (o : HttpOutcome) (resp : Response)
           (fields : list (string * json)) : Prop :=
  o = Answered resp /\
  ~ (400 <= status_code resp < 600)%Z /\
  body resp = Some (JObj fields).

(** A result as [get_recommendations] builds them. *)
Definition built_result (res : Rec.t) : Prop :=
  (exists t fields count,
      py_len (field_or fields "recommendations" (JArr [])) = Ok count /\
      res = rec_success t fields count) \/
  (exists message, res = rec_failure message).

(** A computation that leaves the service of the world in place. *)
Definition keeps_service {A} (m : M A) : Prop :=
  forall w o w', m w = (o, w') -> server w' = server w.

(** A service whose [/recommend] answers, when they hold something with
    a positive length under 'recommendations', hold a list whose first
    element is an object. *)
Definition lists_objects (service : nat -> Request -> HttpOutcome) : Prop :=
  forall n request resp fields v count,
    req_path request = "/recommend" ->
    service n request = Answered resp ->
    body resp = Some (JObj fields) ->
    py_lookup fields "recommendations" = Some v ->
    py_len v = Ok count ->
    (0 < count)%nat ->
    exists first rest, v = JArr (JObj first :: rest).

(** The exceptions a cycle can end with: the empty-sequence error of
    [random.choice], the [KeyError] of indexing a dict with [0], and the
    [AttributeError] of a first recommendation without [get]. *)
Definition cycle_fault (e : Exn) : Prop :=
  e = mkExn "IndexError" "Cannot choose from an empty sequence" \/
  e = mkExn "KeyError" "0" \/
  exists x, py_has_get x = Raise e.

(** An entry of [results['interactions']] that carries a rating. *)
Definition is_rated (i : Interaction.t) : bool :=
  match Interaction.rating i with
  | Some _ => true
  | None => false
  end.

(** The keys of the JSON object a request carries. *)
Definition payload_keys (q : Request) : list string :=
  match req_json q with
  | Some (JObj fields) => map fst fields
  | _ => []
  end.

(* ================================================================== *)
(** ** Concrete services and worlds *)

Definition reply (code : Z) (b : json) : HttpOutcome :=
  Answered (mkResponse code "" (Some b) "" (1 # 4)).

Definition refused : HttpOutcome :=
  TransportError (mkExn "ConnectionError" "Connection refused").

Definition one_recommendation : list (string * json) :=
  [("recommendations", JArr [JObj [("itemId", JStr "ride_003")]]);
   ("model", JStr "collab-v2");
   ("requestId", JStr "r1");
   ("latency", JInt 12)].

(** A service that answers every endpoint, with one recommendation. *)
Definition steady_service (n : nat) (r : Request) : HttpOutcome :=
  if req_path r =? "/health" then reply 200 (JObj [("status", JStr "ok")])
  else if req_path r =? "/recommend" then reply 200 (JObj one_recommendation)
  else if req_path r =? "/track" then reply 200 (JObj [("interaction", JObj [])])
  else reply 200 (JObj [("comparison", JObj [("a", JObj []); ("b", JObj [])]);
                        ("totalComparisonTime", JInt 40)]).

(** A service that cannot be reached. *)
Definition down_service (n : nat) (r : Request) : HttpOutcome := refused.

(** [/recommend] answers 300 Multiple Choices with a JSON body. *)
Definition multiple_choices_service (n : nat) (r : Request) : HttpOutcome :=
  reply 300 (JObj [("recommendations", JArr [])]).

(** [/recommend] answers 200 with a JSON array as body. *)
Definition array_body_service (n : nat) (r : Request) : HttpOutcome :=
  reply 200 (JArr []).

(** [/recommend] lists bare item identifiers instead of objects. *)
Definition bare_ids_service (n : nat) (r : Request) : HttpOutcome :=
  if req_path r =? "/recommend"
  then reply 200 (JObj [("recommendations", JArr [JStr "ride_003"])])
  else steady_service n r.

(** Only the first recommendation request (the second request of a
    cycle) gets through, and it returns no recommendation. *)
Definition flaky_service (n : nat) (r : Request) : HttpOutcome :=
  if req_path r =? "/recommend"
  then if (n =? 1)%nat then reply 200 (JObj [("recommendations", JArr [])])
       else refused
  else steady_service n r.

(** [/health] answers 500. *)
Definition health_500_service (n : nat) (r : Request) : HttpOutcome :=
  if req_path r =? "/health"
  then Answered (mkResponse 500 "500 Server Error" None "" (1 # 4))
  else steady_service n r.

(** [/recommend] answers with an empty list. *)
Definition empty_list_service (n : nat) (r : Request) : HttpOutcome :=
  if req_path r =? "/recommend"
  then reply 200 (JObj [("recommendations", JArr [])])
  else steady_service n r.


(** Every recommendation request is refused. *)
Definition recommend_down_service (n : nat) (r : Request) : HttpOutcome :=
  if req_path r =? "/recommend" then refused else steady_service n r.

(** A probe whose user pool has been emptied. *)
Definition no_users_probe : RecommendationProbe :=
  {| api_base_url := "http://localhost:3000";
     test_users := [];
     test_items := ["ride_001"] |}.

(** A fresh world: the clock advances one second per reading. *)
Definition world_of (service : nat -> Request -> HttpOutcome)
           (rng : nat -> N) : World :=
  {| server := service;
     clock := fun n => inject_Z (Z.of_nat n);
     wall := fun _ => "2024-01-01T00:00:00";
     rand := rng;
     trace := [];
     clock_reads := 0;
     wall_reads := 0;
     rand_draws := 0 |}.

Definition local_probe : RecommendationProbe := init "http://localhost:3000".

(* ================================================================== *)
(** ** Running computations *)

Lemma bind_Ok_inv {A B} (m : M A) (k : A -> M B) w b w' :
  bind m k w = (Ok b, w') ->
  exists a w1, m w = (Ok a, w1) /\ k a w1 = (Ok b, w').
Proof.
  unfold bind. destruct (m w) as [[a | e] w1]; intros H.
  - exists a, w1. split; [reflexivity | exact H].
  - discriminate H.
Qed.

Lemma bind_run {A B} (m : M A) (k : A -> M B) w a w1 :
  m w = (Ok a, w1) -> bind m k w = k a w1.
Proof. unfold bind. intros ->. reflexivity. Qed.

Lemma lift_Ok_inv {A} (o : outcome A) w a w' :
  lift o w = (Ok a, w') -> o = Ok a /\ w' = w.
Proof. unfold lift. intros H. inversion H. split; reflexivity. Qed.

Lemma ret_Ok_inv {A} (x : A) w a w' :
  ret x w = (Ok a, w') -> a = x /\ w' = w.
Proof. unfold ret. intros H. inversion H. split; reflexivity. Qed.

(** Case analysis on whatever the computation in the goal branches on. *)
Ltac split_match :=
  match goal with
  | |- context [match ?x with _ => _ end] =>
      lazymatch x with
      | context [match _ with _ => _ end] => fail
      | _ => destruct x eqn:?; simpl
      end
  end.

Ltac run_cases := simpl; repeat split_match.

Lemma moved_refl w : moved [] 0 w w.
Proof.
  unfold moved. rewrite app_nil_r, Nat.add_0_r. repeat split.
Qed.

Lemma moved_trans c1 d1 c2 d2 w w1 w2 :
  moved c1 d1 w w1 -> moved c2 d2 w1 w2 -> moved (c1 ++ c2) (d1 + d2) w w2.
Proof.
  unfold moved. intros (T1 & R1 & D1) (T2 & R2 & D2).
  rewrite T2, T1, R2, R1, D2, D1, app_assoc, Nat.add_assoc. repeat split.
Qed.

Lemma moved_call r w : moved [r] 0 w (with_call r w).
Proof. unfold moved. simpl. rewrite Nat.add_0_r. repeat split. Qed.

Lemma moved_tick_clock w : moved [] 0 w (tick_clock w).
Proof. unfold moved. simpl. rewrite app_nil_r, Nat.add_0_r. repeat split. Qed.

Lemma moved_tick_wall w : moved [] 0 w (tick_wall w).
Proof. unfold moved. simpl. rewrite app_nil_r, Nat.add_0_r. repeat split. Qed.

Lemma moved_tick_rand w : moved [] 1 w (tick_rand w).
Proof. unfold moved. simpl. rewrite app_nil_r. repeat split. lia. Qed.

Section OperationFacts.

Variable self : RecommendationProbe.

(** The four operations absorb every exception: each returns a result
    and leaves exactly one request on the trace. *)
Lemma health_check_run w :
  exists h, health_check self w = (Ok h, with_call (health_request self) w).
Proof.
  unfold health_check, try_except, bind, session_get, send, raise_for_status,
    response_json, raise, ret, health_request.
  run_cases; eexists; reflexivity.
Qed.

Lemma get_recommendations_run user_id options w :
  exists res w',
    get_recommendations self user_id options w = (Ok res, w') /\
    moved [recommend_request self user_id options] 0 w w'.
Proof.
  assert (Hone : forall w0,
             moved [recommend_request self user_id options] 0 w
                   (with_call (recommend_request self user_id options) w0) ->
             moved [recommend_request self user_id options] 0 w
                   (tick_clock
                      (with_call (recommend_request self user_id options) w0))).
  { intros w0 Hm.
    exact (moved_trans _ 0 [] 0 _ _ _ Hm (moved_tick_clock _)). }
  assert (Hbase : moved [recommend_request self user_id options] 0 w
                    (with_call (recommend_request self user_id options)
                               (tick_clock w))).
  { exact (moved_trans [] 0 _ 0 _ _ _ (moved_tick_clock w) (moved_call _ _)). }
  unfold get_recommendations, try_except, bind, session_post, send,
    raise_for_status, response_json, time_time, lift, raise, ret.
  fold (recommend_request self user_id options).
  run_cases; eexists; eexists; (split; [reflexivity | auto]).
Qed.

Lemma track_interaction_run user_id item_id kind w :
  exists res,
    track_interaction self user_id item_id kind w =
    (Ok res,
     with_call (track_request self user_id item_id kind (wall w (wall_reads w)))
               (tick_wall w)).
Proof.
  unfold track_interaction, try_except, bind, session_post, send,
    raise_for_status, response_json, datetime_now_isoformat, lift, raise, ret,
    track_request.
  run_cases; eexists; reflexivity.
Qed.

Lemma track_interaction_moved user_id item_id kind w :
  moved [track_request self user_id item_id kind (wall w (wall_reads w))] 0 w
        (with_call
           (track_request self user_id item_id kind (wall w (wall_reads w)))
           (tick_wall w)).
Proof.
  exact (moved_trans [] 0 _ 0 _ _ _ (moved_tick_wall w) (moved_call _ _)).
Qed.

Lemma compare_models_run user_id w :
  exists res,
    compare_models self user_id w =
    (Ok res, with_call (compare_request self user_id) w).
Proof.
  unfold compare_models, try_except, bind, session_post, send,
    raise_for_status, response_json, lift, raise, ret, compare_request.
  run_cases; eexists; reflexivity.
Qed.

End OperationFacts.

(* ================================================================== *)
(** ** The health gate *)

(** C1. When the health check of a cycle returns a status other than
    'healthy', [run_probe_cycle] returns at once: the summary is
    [{status: 'failed', reason: 'API unhealthy'}], the recommendation
    and interaction lists and the model comparison are empty, and the
    world it leaves is the one the health check left, so the health
    request is the only request sent and no random number was drawn. *)
Theorem unhealthy_cycle_short_circuits
        (self : RecommendationProbe) (w w1 : World) (health : Health.t) :
  health_check self (tick_wall (tick_clock w)) = (Ok health, w1) ->
  Health.status health <> "healthy" ->
  run_probe_cycle self w =
  (Ok {| Report.cycle_start := wall w (wall_reads w);
         Report.health_check := health;
         Report.recommendations := [];
         Report.interactions := [];
         Report.model_comparison := None;
         Report.summary :=
           {| Summary.status := "failed";
              Summary.reason := Some "API unhealthy";
              Summary.cycle_time := None;
              Summary.total_requests := None;
              Summary.successful_recommendations := None;
              Summary.personalized_responses := None;
              Summary.personalization_rate := None;
              Summary.avg_response_time := None |} |},
   w1) /\
  moved [health_request self] 0 w w1.
Proof.
  intros Hrun Hbad. split.
  - unfold run_probe_cycle, bind, time_time, datetime_now_isoformat.
    rewrite Hrun.
    destruct (String.eqb_spec (Health.status health) "healthy") as [E | _].
    + contradiction.
    + reflexivity.
  - destruct (health_check_run self (tick_wall (tick_clock w))) as [h Hh].
    rewrite Hh in Hrun. inversion Hrun; subst.
    unfold moved. simpl. rewrite Nat.add_0_r. repeat split.
Qed.

Lemma unhealthy_cycle_short_circuits_witness :
  exists r w1,
    run_probe_cycle local_probe (world_of down_service (fun _ => 0%N)) = (Ok r, w1) /\
    Report.summary r = failed_summary /\
    Report.recommendations r = [] /\
    Report.interactions r = [] /\
    Report.model_comparison r = None /\
    trace w1 = [health_request local_probe].
Proof.
  pose (w := world_of down_service (fun _ => 0%N)).
  pose (out := health_check local_probe (tick_wall (tick_clock w))).
  pose (health := match fst out with
                  | Ok h => h
                  | Raise _ => Health.mk "" None None None
                  end).
  assert (Hrun : health_check local_probe (tick_wall (tick_clock w)) =
                 (Ok health, snd out)) by reflexivity.
  assert (Hbad : Health.status health <> "healthy")
    by (vm_compute; discriminate).
  destruct (unhealthy_cycle_short_circuits local_probe w (snd out) health
              Hrun Hbad) as [Hcycle Hmoved].
  eexists. eexists. split; [exact Hcycle |].
  repeat split.
Defined.

(* ================================================================== *)
(** ** Recommendation requests *)

(** C5, as the code has it. [get_recommendations] never raises: for
    every user, options and world it returns a result.  A transport
    error or timeout, a 4xx or 5xx status and a body that does not parse
    each give exactly [{status: 'error', error: <message>,
    response_time: null, recommendations_count: 0}], and every result
    is either that record or has status 'success'. *)
Theorem get_recommendations_absorbs_failures
        (self : RecommendationProbe) (user_id : string) (options : json)
        (w : World) :
  let request := recommend_request self user_id options in
  let failed message :=
    {| Rec.status := "error";
       Rec.error := Some message;
       Rec.response_time := None;
       Rec.recommendations_count := 0;
       Rec.model_used := None;
       Rec.request_id := None;
       Rec.latency := None;
       Rec.data := None |} in
  exists res w',
    get_recommendations self user_id options w = (Ok res, w') /\
    moved [request] 0 w w' /\
    (forall e, answer (tick_clock w) request = TransportError e ->
               res = failed (str e)) /\
    (forall resp, answer (tick_clock w) request = Answered resp ->
                  (400 <= status_code resp < 600)%Z ->
                  res = failed (http_error resp)) /\
    (forall resp, answer (tick_clock w) request = Answered resp ->
                  ~ (400 <= status_code resp < 600)%Z ->
                  body resp = None ->
                  res = failed (json_error resp)) /\
    (Rec.status res = "success" \/ exists message, res = failed message).
Proof.
  intros request failed.
  destruct (get_recommendations_run self user_id options w)
    as (res & w' & Hrun & Hmoved).
  exists res, w'. split; [exact Hrun |]. split; [exact Hmoved |].
  revert Hrun.
  unfold get_recommendations, try_except, bind, session_post, send,
    raise_for_status, response_json, time_time, lift, raise, ret.
  fold (recommend_request self user_id options). fold request.
  destruct (answer (tick_clock w) request) as [e | resp] eqn:Hans; simpl.
  - intros H. inversion H; subst. repeat split; try discriminate.
    + intros e0 He0. inversion He0. reflexivity.
    + right. eexists. reflexivity.
  - destruct ((400 <=? status_code resp)%Z && (status_code resp <? 600)%Z)
      eqn:Hcode; simpl.
    + intros H. inversion H; subst. repeat split; try discriminate.
      * intros r Hr _. inversion Hr. reflexivity.
      * intros r Hr Hnot. inversion Hr; subst. exfalso. apply Hnot.
        apply andb_prop in Hcode. destruct Hcode as [H1 H2].
        apply Z.leb_le in H1. apply Z.ltb_lt in H2. lia.
      * right. eexists. reflexivity.
    + assert (Hout : ~ (400 <= status_code resp < 600)%Z).
      { intros [H1 H2]. apply Z.leb_le in H1. apply Z.ltb_lt in H2.
        rewrite H1, H2 in Hcode. discriminate. }
      destruct (body resp) as [data |] eqn:Hbody; simpl.
      * intros H.
        assert (Hres : Rec.status res = "success" \/
                       exists message, res = failed message).
        { revert H. run_cases; intros H; inversion H; subst;
            solve [ left; reflexivity | right; eexists; reflexivity ]. }
        repeat split; try discriminate.
        -- intros r Hr Hin. inversion Hr; subst. contradiction.
        -- intros r Hr _ Hnone. inversion Hr; subst.
           rewrite Hbody in Hnone. discriminate.
        -- exact Hres.
      * intros H. inversion H; subst. repeat split; try discriminate.
        -- intros r Hr Hin. inversion Hr; subst. contradiction.
        -- intros r Hr _ _. inversion Hr. reflexivity.
        -- right. eexists. reflexivity.
Qed.

(** C5, as the claim states it, fails for a status outside 2xx that is
    not an error class: the service answers 300 with a JSON object and
    the result has status 'success'. *)
Lemma non_2xx_status_reported_as_success :
  let w := world_of multiple_choices_service (fun _ => 0%N) in
  let request := recommend_request local_probe "user_001" JNull in
  exists resp res w',
    answer (tick_clock w) request = Answered resp /\
    status_code resp = 300%Z /\
    get_recommendations local_probe "user_001" JNull w = (Ok res, w') /\
    Rec.status res = "success" /\
    Rec.error res = None.
Proof.
  eexists. eexists. eexists.
  split; [reflexivity |]. split; [reflexivity |].
  split; [reflexivity |]. split; reflexivity.
Qed.

(** C6, as the code has it. When the answer has a 2xx status and its
    body is a JSON object whose 'recommendations' field is absent or a
    list, [get_recommendations] returns a 'success' record:
    [recommendations_count] is the length of that list (0 when absent),
    [model_used] and [request_id] default to 'unknown' and [latency] to
    0 when their fields are absent, [data] is the whole body and
    [response_time] is the difference of the two clock readings around
    the request. *)
Theorem get_recommendations_success_defaults
        (self : RecommendationProbe) (user_id : string) (options : json)
        (w : World) (resp : Response) (fields : list (string * json)) :
  answer (tick_clock w) (recommend_request self user_id options)
  = Answered resp ->
  (200 <= status_code resp < 300)%Z ->
  body resp = Some (JObj fields) ->
  (py_lookup fields "recommendations" = None \/
   exists items, py_lookup fields "recommendations" = Some (JArr items)) ->
  exists w',
    get_recommendations self user_id options w =
    (Ok {| Rec.status := "success";
           Rec.response_time :=
             Some (clock w (S (clock_reads w)) - clock w (clock_reads w));
           Rec.recommendations_count :=
             match py_lookup fields "recommendations" with
             | Some (JArr items) => List.length items
             | _ => 0
             end;
           Rec.model_used := Some (field_or fields "model" (JStr "unknown"));
           Rec.request_id := Some (field_or fields "requestId" (JStr "unknown"));
           Rec.latency := Some (field_or fields "latency" (JInt 0));
           Rec.data := Some (JObj fields);
           Rec.error := None |}, w').
Proof.
  intros Hans [Hlo Hhi] Hbody Hrecs.
  unfold get_recommendations, try_except, bind, session_post, send,
    raise_for_status, response_json, time_time, lift, raise, ret.
  fold (recommend_request self user_id options).
  rewrite Hans. simpl.
  assert (Hcode : ((400 <=? status_code resp)%Z
                   && (status_code resp <? 600)%Z) = false).
  { apply andb_false_iff. left. apply Z.leb_gt. lia. }
  rewrite Hcode, Hbody. simpl. unfold field_or.
  destruct Hrecs as [Hnone | [items Hsome]].
  - rewrite Hnone. simpl.
    destruct (py_lookup fields "model"), (py_lookup fields "requestId"),
      (py_lookup fields "latency"); eexists; reflexivity.
  - rewrite Hsome. simpl.
    destruct (py_lookup fields "model"), (py_lookup fields "requestId"),
      (py_lookup fields "latency"); eexists; reflexivity.
Qed.

Lemma get_recommendations_success_defaults_witness :
  exists w',
    get_recommendations local_probe "user_001" JNull
                        (world_of steady_service (fun _ => 0%N)) =
    (Ok {| Rec.status := "success";
           Rec.response_time := Some (1 - 0);
           Rec.recommendations_count := 1;
           Rec.model_used := Some (JStr "collab-v2");
           Rec.request_id := Some (JStr "r1");
           Rec.latency := Some (JInt 12);
           Rec.data := Some (JObj one_recommendation);
           Rec.error := None |}, w').
Proof.
  pose (w := world_of steady_service (fun _ => 0%N)).
  pose (resp := mkResponse 200 "" (Some (JObj one_recommendation)) "" (1 # 4)).
  assert (Hans : answer (tick_clock w)
                        (recommend_request local_probe "user_001" JNull)
                 = Answered resp) by reflexivity.
  assert (Hcode : (200 <= status_code resp < 300)%Z) by (simpl; lia).
  assert (Hbody : body resp = Some (JObj one_recommendation)) by reflexivity.
  assert (Hrecs : py_lookup one_recommendation "recommendations" = None \/
                  exists items,
                    py_lookup one_recommendation "recommendations"
                    = Some (JArr items))
    by (right; eexists; reflexivity).
  exact (get_recommendations_success_defaults
           local_probe "user_001" JNull w resp one_recommendation
           Hans Hcode Hbody Hrecs).
Defined.

(** C6, as the claim states it, fails for a 2xx answer whose JSON body
    parses but is not an object: [data.get] raises and the result is the
    error record. *)
Lemma array_body_reported_as_error :
  let w := world_of array_body_service (fun _ => 0%N) in
  let request := recommend_request local_probe "user_001" JNull in
  exists resp res w',
    answer (tick_clock w) request = Answered resp /\
    status_code resp = 200%Z /\
    body resp = Some (JArr []) /\
    get_recommendations local_probe "user_001" JNull w = (Ok res, w') /\
    Rec.status res = "error" /\
    Rec.error res = Some "'list' object has no attribute 'get'".
Proof.
  eexists. eexists. eexists.
  split; [reflexivity |]. split; [reflexivity |]. split; [reflexivity |].
  split; [reflexivity |]. split; reflexivity.
Qed.

(* ================================================================== *)
(** ** The random source *)

Lemma below_lt (r : N) (n : nat) : n <> 0%nat -> (below r n < n)%nat.
Proof.
  intros Hn. unfold below.
  assert (H : (r mod N.of_nat n < N.of_nat n)%N) by (apply N.mod_lt; lia).
  lia.
Qed.

Lemma random_choice_inv {A} (seq : list A) w x w' :
  random_choice seq w = (Ok x, w') -> In x seq /\ w' = tick_rand w.
Proof.
  destruct seq as [| a seq].
  - discriminate.
  - unfold random_choice, bind, draw, ret. intros H.
    assert (Hx : x = nth (below (rand w (rand_draws w))
                                (List.length (a :: seq))) (a :: seq) a)
      by congruence.
    assert (Hw : w' = tick_rand w) by congruence.
    rewrite Hx. split.
    + apply nth_In. apply below_lt. discriminate.
    + exact Hw.
Qed.

Lemma random_choice_run {A} (a : A) (seq : list A) w :
  random_choice (a :: seq) w =
  (Ok (nth (below (rand w (rand_draws w)) (S (List.length seq))) (a :: seq) a),
   tick_rand w).
Proof. reflexivity. Qed.

Lemma unit_float_range (r : N) : 0 <= unit_float r /\ unit_float r < 1.
Proof.
  unfold unit_float, Qle, Qlt. simpl.
  assert (H : (0 <= Z.of_N r mod Zpos two_53 < Zpos two_53)%Z)
    by (apply Z.mod_pos_bound; reflexivity).
  lia.
Qed.

Lemma random_randint_run (a b : Z) w :
  (a <= b)%Z ->
  exists z, random_randint a b w = (Ok z, tick_rand w) /\ (a <= z <= b)%Z.
Proof.
  intros Hab. unfold random_randint.
  destruct (Z.ltb_spec b a) as [Hlt | _]; [lia |].
  unfold bind, draw, ret. eexists. split; [reflexivity |].
  assert (H : (0 <= Z.of_N (rand w (rand_draws w)) mod (b - a + 1)
               < b - a + 1)%Z) by (apply Z.mod_pos_bound; lia).
  lia.
Qed.

Lemma Qgtb_true (x y : Q) : Qgtb x y = true <-> y < x.
Proof.
  unfold Qgtb. rewrite negb_true_iff. split.
  - intros H. apply Qnot_le_lt. intros Hle.
    apply Qle_bool_iff in Hle. rewrite Hle in H. discriminate.
  - intros H. destruct (Qle_bool x y) eqn:E; [| reflexivity].
    apply Qle_bool_iff in E. exfalso. exact (Qlt_not_le _ _ H E).
Qed.

Lemma Qgtb_false (x y : Q) : Qgtb x y = false <-> x <= y.
Proof.
  unfold Qgtb. rewrite negb_false_iff. apply Qle_bool_iff.
Qed.

Lemma remove_nth_length {A} (j : nat) (l : list A) :
  (j < List.length l)%nat ->
  List.length (remove_nth j l) = Nat.pred (List.length l).
Proof.
  revert j. induction l as [| h t IH]; intros j Hj.
  - simpl in Hj. lia.
  - destruct j as [| j]; [reflexivity |].
    simpl in Hj. simpl. rewrite IH by lia. lia.
Qed.

Lemma remove_nth_incl {A} (j : nat) (l : list A) : incl (remove_nth j l) l.
Proof.
  revert j. induction l as [| h t IH]; intros j x Hx.
  - exact Hx.
  - destruct j as [| j]; simpl in Hx.
    + right. exact Hx.
    + destruct Hx as [-> | Hx]; [left; reflexivity | right; exact (IH j x Hx)].
Qed.

Lemma remove_nth_NoDup {A} (j : nat) (l : list A) (d : A) :
  NoDup l -> (j < List.length l)%nat ->
  NoDup (remove_nth j l) /\ ~ In (nth j l d) (remove_nth j l).
Proof.
  revert j. induction l as [| h t IH]; intros j Hnd Hj.
  - simpl in Hj. lia.
  - inversion Hnd as [| ? ? Hh Ht]; subst. destruct j as [| j]; simpl.
    + split; assumption.
    + simpl in Hj. destruct (IH j Ht ltac:(lia)) as [IH1 IH2]. split.
      * constructor; [| exact IH1].
        intros Hin. apply Hh. exact (remove_nth_incl j t h Hin).
      * intros [Heq | Hin]; [| exact (IH2 Hin)].
        apply Hh. rewrite Heq. apply nth_In. lia.
Qed.

(** [random.sample] hands back [k] elements of the population, from
    [k] different positions. *)
Lemma sample_from_run {A} (k : nat) (pool : list A) w :
  exists l w',
    sample_from pool k w = (Ok l, w') /\
    List.length l = Nat.min k (List.length pool) /\
    incl l pool /\
    (NoDup pool -> NoDup l) /\
    moved [] (List.length l) w w'.
Proof.
  revert pool w. induction k as [| k IH]; intros pool w.
  - exists [], w. split; [reflexivity |]. split; [reflexivity |].
    split; [intros x [] |]. split; [intros _; constructor |].
    apply moved_refl.
  - destruct pool as [| x pool'].
    + exists [], w. split; [reflexivity |]. split; [reflexivity |].
      split; [intros y [] |]. split; [intros _; constructor |].
      apply moved_refl.
    + set (pool := x :: pool').
      set (j := below (rand w (rand_draws w)) (List.length pool)).
      assert (Hj : (j < List.length pool)%nat)
        by (apply below_lt; simpl; discriminate).
      destruct (IH (remove_nth j pool) (tick_rand w))
        as (rest & w' & Hrun & Hlen & Hincl & Hnd & Hmoved).
      exists (nth j pool x :: rest), w'.
      split; [| split; [| split; [| split]]].
      * change (sample_from pool (S k) w)
          with (bind draw
                  (fun r =>
                     bind (sample_from
                             (remove_nth (below r (List.length pool)) pool) k)
                          (fun rest => ret (nth (below r (List.length pool))
                                                pool x :: rest))) w).
        unfold bind at 1. unfold draw. fold j.
        unfold bind. rewrite Hrun. reflexivity.
      * simpl List.length at 1. rewrite Hlen.
        rewrite remove_nth_length by exact Hj. subst pool. simpl. lia.
      * intros y [<- | Hy].
        -- apply nth_In. exact Hj.
        -- exact (remove_nth_incl j pool y (Hincl y Hy)).
      * intros Hpool.
        destruct (remove_nth_NoDup j pool x Hpool Hj) as [H1 H2].
        constructor; [| exact (Hnd H1)].
        intros Hin. apply H2. exact (Hincl _ Hin).
      * exact (moved_trans [] 1 [] _ _ _ _ (moved_tick_rand w) Hmoved).
Qed.

Lemma random_sample_inv {A} (population : list A) (k : nat) w l w' :
  random_sample population k w = (Ok l, w') ->
  List.length l = Nat.min k (List.length population) /\
  incl l population /\
  (NoDup population -> NoDup l) /\
  moved [] (List.length l) w w'.
Proof.
  unfold random_sample.
  destruct (List.length population <? k)%nat; [discriminate |].
  destruct (sample_from_run k population w)
    as (l0 & w0 & Hrun & Hrest).
  rewrite Hrun. intros H. inversion H; subst. exact Hrest.
Qed.

Lemma random_sample_run {A} (population : list A) w :
  exists l w',
    random_sample population (Nat.min 5 (List.length population)) w
    = (Ok l, w').
Proof.
  unfold random_sample.
  destruct (Nat.ltb_spec (List.length population)
                         (Nat.min 5 (List.length population))) as [H | _].
  - lia.
  - destruct (sample_from_run (Nat.min 5 (List.length population))
                              population w) as (l & w' & Hrun & _).
    exists l, w'. exact Hrun.
Qed.

(* ================================================================== *)
(** ** One pass of the loop *)

Lemma py_get_Ok_inv (d : json) (key : string) (default v : json) :
  py_get d key default = Ok v ->
  exists fields, d = JObj fields /\ v = field_or fields key default.
Proof.
  destruct d; simpl; try discriminate.
  intros H. exists fields. split; [reflexivity |].
  unfold field_or. destruct (py_lookup fields key); congruence.
Qed.

Lemma py_get_object (fields : list (string * json)) (key : string)
      (default : json) :
  py_get (JObj fields) key default = Ok (field_or fields key default).
Proof.
  unfold py_get, field_or. destruct (py_lookup fields key); reflexivity.
Qed.

Lemma py_len_positive_truthy (v : json) (n : nat) :
  py_len v = Ok n -> (0 < n)%nat -> py_truthy v = true.
Proof.
  destruct v; simpl; try discriminate; intros H Hn; inversion H; subst.
  - destruct s; [simpl in Hn; lia | reflexivity].
  - destruct items; [simpl in Hn; lia | reflexivity].
  - destruct fields; [simpl in Hn; lia | reflexivity].
Qed.

Section PassFacts.

Variable self : RecommendationProbe.

Lemma get_recommendations_counted user_id options w res w' :
  get_recommendations self user_id options w = (Ok res, w') ->
  counted_from_data res.
Proof.
  unfold get_recommendations, try_except, bind, session_post, send,
    raise_for_status, response_json, time_time, lift, raise, ret.
  run_cases; intros H; inversion H; subst; intros Hs; simpl in Hs;
    try discriminate.
  match goal with
  | Hg : py_get ?d "recommendations" _ = Ok _ |- _ =>
      destruct (py_get_Ok_inv _ _ _ _ Hg) as (fields & -> & ->)
  end.
  exists fields. simpl. split; [reflexivity | assumption].
Qed.

(** The draw decides the "rate" branch: above the double 0.7 a rating
    in 1..5 is drawn and one "rate" request is sent, otherwise the
    list is returned as it is and nothing is sent. *)
Lemma simulate_rating_run user_id item_id interactions w :
  let d := unit_float (rand w (rand_draws w)) in
  (d <= float_0_7 /\
   simulate_rating self user_id item_id interactions w
   = (Ok interactions, tick_rand w)) \/
  (float_0_7 < d /\
   exists rating rated w',
     (1 <= rating <= 5)%Z /\
     simulate_rating self user_id item_id interactions w
     = (Ok (interactions ++ [rate_entry user_id item_id rating rated]), w') /\
     moved [track_request self user_id item_id "rate" (wall w (wall_reads w))]
           2 w w').
Proof.
  intros d.
  assert (Hstep :
            simulate_rating self user_id item_id interactions w =
            (if Qgtb d float_0_7
             then
               rating <- random_randint 1 5 ;;
               interaction_result <-
                 track_interaction self user_id item_id "rate" ;;
               ret (interactions ++
                    [rate_entry user_id item_id rating interaction_result])
             else ret interactions) (tick_rand w)) by reflexivity.
  rewrite Hstep. clear Hstep.
  destruct (Qgtb d float_0_7) eqn:Hd.
  - right. split; [apply Qgtb_true; exact Hd |].
    destruct (random_randint_run 1 5 (tick_rand w) ltac:(lia))
      as (rating & Hrating & Hrange).
    destruct (track_interaction_run self user_id item_id "rate"
                                    (tick_rand (tick_rand w)))
      as (rated & Hrated).
    exists rating, rated. eexists. split; [exact Hrange |]. split.
    + rewrite (bind_run _ _ _ _ _ Hrating).
      rewrite (bind_run _ _ _ _ _ Hrated). reflexivity.
    + unfold moved. simpl. repeat split. lia.
  - left. split; [apply Qgtb_false; exact Hd | reflexivity].
Qed.

(** With a first recommendation that is an object and a non-empty item
    pool, the block sends the "view" request for the chosen item and
    goes on to the "rate" branch. *)
Lemma track_some_interactions_run user_id res interactions w
      fields first rest pool_head pool_tail :
  is_personalized (Entry.mk user_id res) = true ->
  Rec.data res = Some (JObj fields) ->
  py_lookup fields "recommendations" = Some (JArr (JObj first :: rest)) ->
  test_items self = pool_head :: pool_tail ->
  let fallback :=
    nth (below (rand w (rand_draws w)) (List.length (test_items self)))
        (test_items self) pool_head in
  let item_id := field_or first "itemId" (JStr fallback) in
  let w1 :=
    with_call (track_request self user_id item_id "view" (wall w (wall_reads w)))
              (tick_wall (tick_rand w)) in
  exists viewed,
    track_interaction self user_id item_id "view" (tick_rand w)
    = (Ok viewed, w1) /\
    track_some_interactions self user_id res interactions w =
    simulate_rating self user_id item_id
                    (interactions ++ [view_entry user_id item_id viewed]) w1.
Proof.
  intros Hpers Hdata Hrecs Hpool fallback item_id w1.
  destruct (track_interaction_run self user_id item_id "view" (tick_rand w))
    as (viewed & Hviewed).
  exists viewed. split; [exact Hviewed |].
  unfold track_some_interactions.
  unfold is_personalized, is_success in Hpers. simpl in Hpers.
  rewrite Hpers.
  assert (H1 : lift (rec_data res) w = (Ok (JObj fields), w))
    by (unfold lift, rec_data; rewrite Hdata; reflexivity).
  assert (H2 : lift (py_get (JObj fields) "recommendations" (JArr [])) w
               = (Ok (JArr (JObj first :: rest)), w))
    by (unfold lift; rewrite py_get_object; unfold field_or;
        rewrite Hrecs; reflexivity).
  assert (H3 : lift (py_first (JArr (JObj first :: rest))) w
               = (Ok (JObj first), w)) by reflexivity.
  assert (H4 : lift (py_has_get (JObj first)) w = (Ok tt, w))
    by reflexivity.
  assert (H5 : random_choice (test_items self) w
               = (Ok fallback, tick_rand w))
    by (subst fallback; rewrite Hpool; apply random_choice_run).
  assert (H6 : lift (py_get (JObj first) "itemId" (JStr fallback))
                    (tick_rand w)
               = (Ok item_id, tick_rand w))
    by (unfold lift; rewrite py_get_object; reflexivity).
  rewrite (bind_run _ _ _ _ _ H1). cbv beta.
  rewrite (bind_run _ _ _ _ _ H2). cbv beta.
  change (py_truthy (JArr (JObj first :: rest))) with true. cbv iota.
  rewrite (bind_run _ _ _ _ _ H3). cbv beta.
  rewrite (bind_run _ _ _ _ _ H4). cbv beta.
  rewrite (bind_run _ _ _ _ _ H5). cbv beta.
  rewrite (bind_run _ _ _ _ _ H6). cbv beta.
  rewrite (bind_run _ _ _ _ _ Hviewed). reflexivity.
Qed.

(** A result that is not personalized leaves the block untouched. *)
Lemma track_some_interactions_skip user_id res interactions w :
  is_personalized (Entry.mk user_id res) = false ->
  track_some_interactions self user_id res interactions w
  = (Ok interactions, w).
Proof.
  intros Hpers. unfold track_some_interactions.
  unfold is_personalized, is_success in Hpers. simpl in Hpers.
  rewrite Hpers. reflexivity.
Qed.

(** When the block returns for a personalized result of
    [get_recommendations], the first recommendation was an object and
    the item pool was not empty. *)
Lemma track_some_interactions_Ok_inv user_id res interactions w out w' :
  counted_from_data res ->
  is_personalized (Entry.mk user_id res) = true ->
  track_some_interactions self user_id res interactions w = (Ok out, w') ->
  exists fields first rest pool_head pool_tail,
    Rec.data res = Some (JObj fields) /\
    py_lookup fields "recommendations" = Some (JArr (JObj first :: rest)) /\
    test_items self = pool_head :: pool_tail.
Proof.
  intros Hcounted Hpers.
  assert (Hp := Hpers).
  unfold is_personalized, is_success in Hp. simpl in Hp.
  apply andb_prop in Hp. destruct Hp as [Hs Hc].
  apply String.eqb_eq in Hs. apply Nat.ltb_lt in Hc.
  destruct (Hcounted Hs) as (fields & Hdata & Hlen).
  assert (Htruthy := py_len_positive_truthy _ _ Hlen Hc).
  unfold track_some_interactions.
  unfold is_personalized, is_success in Hpers. simpl in Hpers.
  rewrite Hpers. unfold rec_data. rewrite Hdata.
  unfold bind at 1. unfold lift at 1.
  unfold bind at 1. unfold lift at 1. rewrite py_get_object.
  rewrite Htruthy.
  unfold bind at 1. unfold lift at 1.
  destruct (py_first (field_or fields "recommendations" (JArr [])))
    as [head |] eqn:Hfirst; [| discriminate].
  unfold bind at 1. unfold lift at 1.
  destruct (py_has_get head) eqn:Hget; [| discriminate].
  destruct head; try discriminate.
  unfold bind at 1.
  destruct (random_choice (test_items self) w) as [[fallback |] w1] eqn:Hch;
    [| discriminate].
  intros _.
  destruct (test_items self) as [| pool_head pool_tail] eqn:Hpool;
    [discriminate |].
  unfold field_or in Hfirst.
  destruct (py_lookup fields "recommendations") as [recs |] eqn:Hrecs;
    [| discriminate].
  destruct recs; try discriminate.
  - simpl in Hfirst. destruct s; discriminate.
  - destruct items as [| x items]; [discriminate |].
    simpl in Hfirst. inversion Hfirst; subst.
    exists fields, fields0, items, pool_head, pool_tail.
    split; [reflexivity |]. split; [exact Hrecs | reflexivity].
Qed.

End PassFacts.

Section LoopFacts.

Variable self : RecommendationProbe.

Lemma probe_user_pass user_id st w st' w' :
  probe_user self user_id st w = (Ok st', w') ->
  exists p draws,
    st' = (fst st ++ [pass_entry p], snd st ++ pass_block p) /\
    moved (pass_calls p) draws w w' /\
    pass_ok self user_id p.
Proof.
  unfold probe_user. intros H.
  apply bind_Ok_inv in H. destruct H as (location & wa & Hloc & H).
  apply random_choice_inv in Hloc. destruct Hloc as [_ ->].
  apply bind_Ok_inv in H. destruct H as (timeOfDay & wb & Htod & H).
  apply random_choice_inv in Htod. destruct Htod as [_ ->].
  apply bind_Ok_inv in H. destruct H as (res & wc & Hrec & H).
  apply bind_Ok_inv in H. destruct H as (out & wd & Htrack & H).
  apply ret_Ok_inv in H. destruct H as [-> ->].
  assert (Hcounted := get_recommendations_counted _ _ _ _ _ _ Hrec).
  destruct (get_recommendations_run self user_id
              (probe_options location timeOfDay) (tick_rand (tick_rand w)))
    as (res0 & wc0 & Hrec0 & Hmoved).
  rewrite Hrec in Hrec0. inversion Hrec0; subst res0 wc0. clear Hrec0.
  assert (Hdraws : moved [] 2 w (tick_rand (tick_rand w))).
  { exact (moved_trans [] 1 [] 1 _ _ _ (moved_tick_rand w)
                       (moved_tick_rand _)). }
  assert (Hupto := moved_trans _ _ _ _ _ _ _ Hdraws Hmoved).
  simpl in Hupto.
  set (request := recommend_request self user_id
                                    (probe_options location timeOfDay)) in *.
  destruct (is_personalized (Entry.mk user_id res)) eqn:Hpers.
  - destruct (track_some_interactions_Ok_inv self _ _ _ _ _ _
                Hcounted Hpers Htrack)
      as (fields & first & rest & pool_head & pool_tail
          & Hdata & Hrecs & Hpool).
    destruct (track_some_interactions_run self user_id res (snd st) wc
                fields first rest pool_head pool_tail
                Hpers Hdata Hrecs Hpool)
      as (viewed & Hviewed & Hblock).
    rewrite Hblock in Htrack. clear Hblock.
    set (fallback := nth (below (rand wc (rand_draws wc))
                                (List.length (test_items self)))
                         (test_items self) pool_head) in *.
    set (item_id := field_or first "itemId" (JStr fallback)) in *.
    set (ts := wall wc (wall_reads wc)) in *.
    set (w1 := with_call (track_request self user_id item_id "view" ts)
                         (tick_wall (tick_rand wc))) in *.
    assert (Hitem : first_item_id self res item_id).
    { exists fields, first, rest. split; [exact Hdata |].
      split; [exact Hrecs |].
      subst item_id. unfold field_or.
      destruct (py_lookup first "itemId"); [reflexivity |].
      exists fallback. split; [| reflexivity].
      subst fallback. apply nth_In. apply below_lt.
      rewrite Hpool. discriminate. }
    assert (Hview : moved [track_request self user_id item_id "view" ts]
                          1 wc w1).
    { exact (moved_trans [] 1 _ 0 _ _ _ (moved_tick_rand wc)
                         (track_interaction_moved self user_id item_id
                                                  "view" (tick_rand wc))). }
    assert (Hupto1 := moved_trans _ _ _ _ _ _ _ Hupto Hview).
    simpl in Hupto1.
    destruct (simulate_rating_run self user_id item_id
                (snd st ++ [view_entry user_id item_id viewed]) w1)
      as [[_ Hrun] | [_ (rating & rated & w2 & Hrange & Hrun & Hrate)]];
      rewrite Hrun in Htrack; inversion Htrack; subst out wd; clear Htrack.
    + exists (mkPass (Entry.mk user_id res)
                     [view_entry user_id item_id viewed]
                     [request; track_request self user_id item_id "view" ts]).
      eexists. split; [reflexivity |]. split.
      * exact (moved_trans _ _ [] 1 _ _ _ Hupto1 (moved_tick_rand w1)).
      * apply pass_viewed; assumption.
    + exists (mkPass (Entry.mk user_id res)
                     [view_entry user_id item_id viewed;
                      rate_entry user_id item_id rating rated]
                     [request; track_request self user_id item_id "view" ts;
                      track_request self user_id item_id "rate"
                                    (wall w1 (wall_reads w1))]).
      eexists. split; [| split].
      * simpl. rewrite <- app_assoc. reflexivity.
      * exact (moved_trans _ _ _ _ _ _ _ Hupto1 Hrate).
      * apply pass_rated; assumption.
  - rewrite (track_some_interactions_skip self _ _ _ _ Hpers) in Htrack.
    inversion Htrack; subst out wd.
    exists (mkPass (Entry.mk user_id res) [] [request]).
    eexists. split; [| split].
    + simpl. rewrite app_nil_r. reflexivity.
    + exact Hupto.
    + apply pass_untracked. exact Hpers.
Qed.

Lemma probe_users_pass users st w st' w' :
  probe_users self users st w = (Ok st', w') ->
  exists passes draws,
    st' = (fst st ++ map pass_entry passes,
           snd st ++ List.concat (map pass_block passes)) /\
    moved (List.concat (map pass_calls passes)) draws w w' /\
    Forall2 (pass_ok self) users passes.
Proof.
  revert st w. induction users as [| user_id rest IH]; intros st w H.
  - simpl in H. apply ret_Ok_inv in H. destruct H as [-> ->].
    exists [], 0%nat. simpl. rewrite !app_nil_r.
    split; [destruct st; reflexivity |].
    split; [apply moved_refl | constructor].
  - simpl in H. apply bind_Ok_inv in H.
    destruct H as (st1 & w1 & Hone & Hrest).
    apply probe_user_pass in Hone.
    destruct Hone as (p & d1 & -> & Hm1 & Hp).
    apply IH in Hrest.
    destruct Hrest as (passes & d2 & -> & Hm2 & Hall).
    exists (p :: passes), (d1 + d2)%nat. simpl.
    split; [| split].
    + rewrite <- !app_assoc. reflexivity.
    + exact (moved_trans _ _ _ _ _ _ _ Hm1 Hm2).
    + constructor; assumption.
Qed.

End LoopFacts.

(* ================================================================== *)
(** ** The whole cycle *)

(** The summary is always computed: neither division can fault, since
    both are guarded by the emptiness test. *)
Lemma make_summary_run (cycle_time : Q) (results : list Entry.t) :
  make_summary cycle_time results =
  Ok {| Summary.status := "completed";
        Summary.reason := None;
        Summary.cycle_time := Some cycle_time;
        Summary.total_requests := Some (List.length results + 1)%nat;
        Summary.successful_recommendations := Some (count_if is_success results);
        Summary.personalized_responses :=
          Some (count_if is_personalized results);
        Summary.personalization_rate :=
          Some (match results with
                | [] => Finite 0
                | _ :: _ => round64 (of_count (count_if is_personalized results)
                                     / of_count (List.length results))
                end);
        Summary.avg_response_time :=
          Some (match results with
                | [] => Finite 0
                | _ :: _ =>
                    match round64 (of_count (List.length results)),
                          py_sum (truthy_response_times results) with
                    | Finite d, Finite a => round64 (a / d)
                    | Finite _, Infinite s => Infinite s
                    | Infinite _, Finite _ => Finite 0
                    | _, _ => NotANumber
                    end
                end) |}.
Proof. destruct results; reflexivity. Qed.

Lemma run_probe_cycle_inv (self : RecommendationProbe) w r w' :
  run_probe_cycle self w = (Ok r, w') ->
  failed_shape self w w' r \/
  exists sampled passes calls, completed_shape self w w' r sampled passes calls.
Proof.
  unfold run_probe_cycle. intros H.
  apply bind_Ok_inv in H. destruct H as (cycle_start & wa & Ha & H).
  unfold time_time in Ha. inversion Ha; subst cycle_start wa. clear Ha.
  apply bind_Ok_inv in H. destruct H as (started & wb & Hb & H).
  unfold datetime_now_isoformat in Hb. inversion Hb; subst started wb. clear Hb.
  apply bind_Ok_inv in H. destruct H as (health & wc & Hc & H).
  destruct (health_check_run self (tick_wall (tick_clock w))) as (h0 & Hh).
  rewrite Hc in Hh. inversion Hh; subst h0 wc. clear Hh.
  set (w0 := with_call (health_request self) (tick_wall (tick_clock w))) in *.
  assert (Hgate : moved [health_request self] 0 w w0).
  { unfold moved. simpl. rewrite Nat.add_0_r. repeat split. }
  destruct (String.eqb_spec (Health.status health) "healthy") as [Hok | Hbad];
    cbn [negb] in H.
  - right.
    apply bind_Ok_inv in H. destruct H as (sampled & wd & Hd & H).
    apply random_sample_inv in Hd.
    destruct Hd as (Hlen & Hincl & Hnodup & Hmd).
    apply bind_Ok_inv in H. destruct H as (st & we & He & H).
    apply probe_users_pass in He.
    destruct He as (passes & draws & -> & Hme & Hall).
    apply bind_Ok_inv in H. destruct H as (comparison_user & wf & Hf & H).
    apply random_choice_inv in Hf. destruct Hf as [Hin ->].
    apply bind_Ok_inv in H. destruct H as (comparison & wg & Hg & H).
    destruct (compare_models_run self comparison_user (tick_rand we))
      as (c0 & Hc0).
    rewrite Hg in Hc0. inversion Hc0; subst c0 wg. clear Hc0.
    apply bind_Ok_inv in H. destruct H as (cycle_end & wh & Hh & H).
    unfold time_time in Hh. inversion Hh; subst cycle_end wh. clear Hh.
    apply bind_Ok_inv in H. destruct H as (summary & wi & Hi & H).
    apply lift_Ok_inv in Hi. destruct Hi as [Hsum ->].
    apply ret_Ok_inv in H. destruct H as [-> ->].
    simpl in Hsum.
    exists sampled, passes,
      (health_request self :: List.concat (map pass_calls passes)
       ++ [compare_request self comparison_user]).
    unfold completed_shape.
    cbn [Report.recommendations Report.interactions Report.summary
         Report.health_check Report.model_comparison fst snd app].
    split; [lia |]. split; [exact Hincl |]. split; [exact Hnodup |].
    split; [exact Hall |]. split; [reflexivity |]. split; [reflexivity |].
    split; [exists comparison_user; split; [exact Hin | reflexivity] |].
    split.
    { eexists.
      assert (H1 := moved_trans _ _ _ _ _ _ _ Hgate Hmd).
      assert (H2 := moved_trans _ _ _ _ _ _ _ H1 Hme).
      assert (H3 := moved_trans _ _ _ _ _ _ _ H2 (moved_tick_rand we)).
      assert (H4 := moved_trans _ _ _ _ _ _ _ H3
                      (moved_call (compare_request self comparison_user)
                                  (tick_rand we))).
      assert (H5 := moved_trans _ _ _ _ _ _ _ H4
                      (moved_tick_clock
                         (with_call (compare_request self comparison_user)
                                    (tick_rand we)))).
      simpl in H5. rewrite !app_nil_r in H5. exact H5. }
    split; [eexists; exact Hsum |].
    split; [exact Hok | discriminate].
  - left. apply ret_Ok_inv in H. destruct H as [-> ->].
    unfold failed_shape. simpl.
    repeat (split; [reflexivity |]). split; [exact Hbad | exact Hgate].
Qed.

Lemma failed_not_completed (self : RecommendationProbe) w w' r :
  failed_shape self w w' r ->
  Summary.status (Report.summary r) = "completed" -> False.
Proof.
  intros (Hs & _) Hc. rewrite Hs in Hc. discriminate.
Qed.

Lemma completed_summary (self : RecommendationProbe) w w' r sampled passes calls :
  completed_shape self w w' r sampled passes calls ->
  List.length (Report.recommendations r)
  = Nat.min 5 (List.length (test_users self)) /\
  exists cycle_time,
    make_summary cycle_time (Report.recommendations r) = Ok (Report.summary r).
Proof.
  intros (Hlen & _ & _ & Hall & Hrecs & _ & _ & _ & Hsum & _).
  split; [| exact Hsum].
  rewrite Hrecs, length_map, <- (Forall2_length Hall). exact Hlen.
Qed.

(* ================================================================== *)
(** ** The summary of a completed cycle *)

Lemma count_if_filter (f : Entry.t -> bool) (l : list Entry.t) :
  count_if f l = List.length (filter f l).
Proof.
  unfold count_if. induction (filter f l) as [| x t IH]; simpl.
  - reflexivity.
  - rewrite IH. reflexivity.
Qed.

Lemma filter_length_le {A} (f : A -> bool) (l : list A) :
  (List.length (filter f l) <= List.length l)%nat.
Proof.
  induction l as [| x t IH]; simpl.
  - lia.
  - destruct (f x); simpl; lia.
Qed.

Lemma filter_length_mono {A} (f g : A -> bool) (l : list A) :
  (forall x, f x = true -> g x = true) ->
  (List.length (filter f l) <= List.length (filter g l))%nat.
Proof.
  intros Hfg. induction l as [| x t IH]; simpl.
  - lia.
  - destruct (f x) eqn:Hf.
    + rewrite (Hfg x Hf). simpl. lia.
    + destruct (g x); simpl; lia.
Qed.





(** C8. In a completed cycle
    [0 <= personalized_responses <= successful_recommendations
       <= number of sampled users]. *)
Theorem summary_counts_are_ordered
        (self : RecommendationProbe) (w w' : World) (r : Report.t) :
  run_probe_cycle self w = (Ok r, w') ->
  Summary.status (Report.summary r) = "completed" ->
  exists personalized successful,
    Summary.personalized_responses (Report.summary r) = Some personalized /\
    Summary.successful_recommendations (Report.summary r) = Some successful /\
    (0 <= personalized)%nat /\
    (personalized <= successful)%nat /\
    (successful <= List.length (Report.recommendations r))%nat /\
    List.length (Report.recommendations r)
    = Nat.min 5 (List.length (test_users self)).
Proof.
  intros Hrun Hdone.
  destruct (run_probe_cycle_inv self w r w' Hrun)
    as [Hfailed | (users & passes & calls & Hshape)].
  - exfalso. exact (failed_not_completed _ _ _ _ Hfailed Hdone).
  - destruct (completed_summary _ _ _ _ _ _ _ Hshape) as (Hlen & ct & Hsum).
    rewrite make_summary_run in Hsum. inversion Hsum as [Hs]. clear Hsum.
    cbn [Summary.personalized_responses Summary.successful_recommendations].
    eexists. eexists. split; [reflexivity |]. split; [reflexivity |].
    rewrite !count_if_filter.
    split; [lia |]. split; [| split; [apply filter_length_le | exact Hlen]].
    apply filter_length_mono. intros x Hx.
    unfold is_personalized in Hx. apply andb_prop in Hx. exact (proj1 Hx).
Qed.

Lemma summary_counts_are_ordered_witness :
  exists r w',
    run_probe_cycle local_probe (world_of flaky_service (fun _ => 0%N))
    = (Ok r, w') /\
    exists personalized successful,
      Summary.personalized_responses (Report.summary r) = Some personalized /\
      Summary.successful_recommendations (Report.summary r) = Some successful /\
      (0 <= personalized)%nat /\
      (personalized <= successful)%nat /\
      (successful <= List.length (Report.recommendations r))%nat /\
      List.length (Report.recommendations r)
      = Nat.min 5 (List.length (test_users local_probe)).
Proof.
  destruct (run_probe_cycle local_probe (world_of flaky_service (fun _ => 0%N)))
    as [[r | e] w'] eqn:Hrun.
  - assert (Hdone : Summary.status (Report.summary r) = "completed").
    { pose proof Hrun as H. vm_compute in H. inversion H. reflexivity. }
    exists r, w'. split; [reflexivity |].
    exact (summary_counts_are_ordered local_probe _ w' r Hrun Hdone).
  - vm_compute in Hrun. discriminate.
Defined.

(* ================================================================== *)
(** ** Counting the requests of a cycle *)

Lemma count_calls_app (f : Request -> bool) (a b : list Request) :
  count_calls f (a ++ b) = (count_calls f a + count_calls f b)%nat.
Proof. unfold count_calls. rewrite filter_app, length_app. reflexivity. Qed.

Lemma count_calls_single (f : Request -> bool) (q : Request) :
  count_calls f [q] = if f q then 1%nat else 0%nat.
Proof. unfold count_calls. simpl. destruct (f q); reflexivity. Qed.

(** Decide what a classifier says of a request whose path is known. *)
Ltac eval_calls :=
  repeat match goal with
         | |- context [is_call_to ?p ?q] =>
             let b := eval vm_compute in (is_call_to p q) in
             change (is_call_to p q) with b
         end.

Lemma pass_census (self : RecommendationProbe) (user_id : string) (p : Pass) :
  pass_ok self user_id p ->
  count_calls (is_call_to "/recommend") (pass_calls p) = 1%nat /\
  count_calls (is_call_to "/models/compare") (pass_calls p) = 0%nat /\
  count_calls (is_call_to "/health") (pass_calls p) = 0%nat /\
  List.length (pass_calls p)
  = (1 + count_calls (is_call_to "/track") (pass_calls p))%nat.
Proof.
  unfold pass_ok. intros H. inversion H; repeat split; reflexivity.
Qed.

Lemma passes_census (self : RecommendationProbe) (users : list string)
      (passes : list Pass) :
  Forall2 (pass_ok self) users passes ->
  let calls := List.concat (map pass_calls passes) in
  count_calls (is_call_to "/recommend") calls = List.length passes /\
  count_calls (is_call_to "/models/compare") calls = 0%nat /\
  count_calls (is_call_to "/health") calls = 0%nat /\
  List.length calls
  = (List.length passes + count_calls (is_call_to "/track") calls)%nat.
Proof.
  induction 1 as [| u p us ps Hp _ IH]; simpl.
  - repeat split.
  - destruct (pass_census self u p Hp) as (H1 & H2 & H3 & H4).
    destruct IH as (I1 & I2 & I3 & I4).
    rewrite !count_calls_app, length_app, H1, H2, H3, H4, I1, I2, I3, I4.
    repeat split; lia.
Qed.

(** C9. In a completed cycle [total_requests] is the number of sampled
    users plus one.  Of the requests the cycle sent, exactly that many
    went to [/recommend] and [/models/compare] together; the health
    request and every tracking request come on top and are not counted. *)
Theorem total_requests_counts_recommend_and_compare
        (self : RecommendationProbe) (w w' : World) (r : Report.t) :
  run_probe_cycle self w = (Ok r, w') ->
  Summary.status (Report.summary r) = "completed" ->
  let sampled := List.length (Report.recommendations r) in
  Summary.total_requests (Report.summary r) = Some (sampled + 1)%nat /\
  sampled = Nat.min 5 (List.length (test_users self)) /\
  exists calls draws,
    moved calls draws w w' /\
    count_calls (is_call_to "/recommend") calls = sampled /\
    count_calls (is_call_to "/models/compare") calls = 1%nat /\
    count_calls (is_call_to "/health") calls = 1%nat /\
    List.length calls
    = ((sampled + 1) + 1 + count_calls (is_call_to "/track") calls)%nat.
Proof.
  intros Hrun Hdone sampled.
  destruct (run_probe_cycle_inv self w r w' Hrun)
    as [Hfailed | (users & passes & calls & Hshape)].
  - exfalso. exact (failed_not_completed _ _ _ _ Hfailed Hdone).
  - destruct (completed_summary _ _ _ _ _ _ _ Hshape) as (Hlen & ct & Hsum).
    rewrite make_summary_run in Hsum. inversion Hsum as [Hs]. clear Hsum.
    cbn [Summary.total_requests].
    split; [reflexivity |]. split; [exact Hlen |].
    destruct Hshape as (_ & _ & _ & Hall & Hrecs & _
                        & (cu & _ & Hcalls) & (draws & Hmoved) & _).
    exists calls, draws. split; [exact Hmoved |].
    destruct (passes_census self users passes Hall) as (C1 & C2 & C3 & C4).
    assert (Hn : sampled = List.length passes).
    { subst sampled. rewrite Hrecs, length_map. reflexivity. }
    rewrite Hcalls.
    change (health_request self
            :: List.concat (map pass_calls passes)
            ++ [compare_request self cu])
      with ([health_request self]
            ++ List.concat (map pass_calls passes)
            ++ [compare_request self cu]).
    rewrite !count_calls_app, !length_app, C1, C2, C3, C4, Hn.
    rewrite !count_calls_single. eval_calls.
    repeat split; simpl; lia.
Qed.

Lemma total_requests_counts_recommend_and_compare_witness :
  exists r w',
    run_probe_cycle local_probe (world_of steady_service (fun _ => 0%N))
    = (Ok r, w') /\
    Summary.total_requests (Report.summary r) = Some 6%nat /\
    List.length (trace w') = 12%nat.
Proof.
  destruct (run_probe_cycle local_probe (world_of steady_service (fun _ => 0%N)))
    as [[r | e] w'] eqn:Hrun.
  - assert (Hdone : Summary.status (Report.summary r) = "completed"
                    /\ List.length (Report.recommendations r) = 5%nat
                    /\ List.length (trace w') = 12%nat).
    { pose proof Hrun as H. vm_compute in H. inversion H.
      repeat split. }
    destruct Hdone as (Hdone & Hfive & Htrace).
    destruct (total_requests_counts_recommend_and_compare
                local_probe _ w' r Hrun Hdone) as (Htotal & _).
    exists r, w'. split; [reflexivity |].
    rewrite Hfive in Htotal. split; [exact Htotal | exact Htrace].
  - vm_compute in Hrun. discriminate.
Defined.

(* ================================================================== *)
(** ** The average response time *)

(** What the code computes: the sum of the response times that are
    neither [None] nor zero, divided by the number of all results. *)
Lemma avg_response_time_divides_by_all_results
      (cycle_time : Q) (results : list Entry.t) (s : Summary.t) :
  make_summary cycle_time results = Ok s ->
  Some (Summary.avg_response_time s) =
  match results with
  | [] => Some (Some (Finite 0))
  | _ :: _ =>
      match py_float_div (py_sum (truthy_response_times results))
                         (List.length results) with
      | Ok avg => Some (Some avg)
      | Raise _ => None
      end
  end.
Proof.
  rewrite make_summary_run. intros H. inversion H.
  destruct results; reflexivity.
Qed.

(** C3 does not hold of the code.  With one request answered in one
    second and four requests refused, the only response time there is
    is 1, so the mean over the results that have one is 1; the summary
    reports the float 0.2, the sum 1 divided by all 5 results. *)
Lemma avg_response_time_counts_failed_requests :
  exists r w' avg,
    run_probe_cycle local_probe (world_of flaky_service (fun _ => 0%N))
    = (Ok r, w') /\
    Summary.status (Report.summary r) = "completed" /\
    map (fun e => Rec.response_time (Entry.result e)) (Report.recommendations r)
    = [Some (2 - 1); None; None; None; None] /\
    Summary.avg_response_time (Report.summary r) = Some (Finite avg) /\
    avg == 3602879701896397 # 18014398509481984 /\
    ~ avg == (2 - 1) / 1.
Proof.
  eexists. eexists. eexists.
  split; [vm_compute; reflexivity |].
  split; [reflexivity |]. split; [reflexivity |]. split; [reflexivity |].
  split; [reflexivity |]. intros H. vm_compute in H. discriminate.
Qed.

(* ================================================================== *)
(** ** The interactions of a cycle *)

Lemma pass_entry_user (self : RecommendationProbe) (user_id : string) (p : Pass) :
  pass_ok self user_id p -> Entry.user_id (pass_entry p) = user_id.
Proof. unfold pass_ok. intros H. inversion H; reflexivity. Qed.

Lemma pass_block_shape (self : RecommendationProbe) (user_id : string) (p : Pass) :
  pass_ok self user_id p ->
  interactions_of_user (pass_entry p) (pass_block p).
Proof.
  unfold pass_ok, interactions_of_user. intros H. inversion H.
  - left. reflexivity.
  - right. split; [assumption |].
    exists item_id, viewed. left. reflexivity.
  - right. split; [assumption |].
    exists item_id, viewed. right. exists rating, rated.
    split; [assumption | reflexivity].
Qed.

Lemma passes_block_shape (self : RecommendationProbe) (users : list string)
      (passes : list Pass) :
  Forall2 (pass_ok self) users passes ->
  Forall2 interactions_of_user (map pass_entry passes) (map pass_block passes)
  /\ map Entry.user_id (map pass_entry passes) = users.
Proof.
  induction 1 as [| u p us ps Hp _ [IH1 IH2]]; simpl.
  - split; [constructor | reflexivity].
  - split.
    + constructor; [exact (pass_block_shape self u p Hp) | exact IH1].
    + rewrite IH2, (pass_entry_user self u p Hp). reflexivity.
Qed.

Lemma block_length (e : Entry.t) (block : list Interaction.t) :
  interactions_of_user e block -> (List.length block <= 2)%nat.
Proof.
  intros [-> | (_ & item & viewed & [-> | (rating & rated & _ & ->)])];
    simpl; lia.
Qed.

Lemma block_owner (e : Entry.t) (block : list Interaction.t) (i : Interaction.t) :
  interactions_of_user e block -> In i block ->
  Interaction.user_id i = Entry.user_id e /\ is_personalized e = true.
Proof.
  intros [-> | (Hp & item & viewed & [-> | (rating & rated & _ & ->)])] Hin;
    simpl in Hin.
  - contradiction.
  - destruct Hin as [<- | []]. split; [reflexivity | exact Hp].
  - destruct Hin as [<- | [<- | []]]; (split; [reflexivity | exact Hp]).
Qed.

Lemma blocks_bound (entries : list Entry.t) (blocks : list (list Interaction.t)) :
  Forall2 interactions_of_user entries blocks ->
  (List.length (List.concat blocks) <= 2 * List.length entries)%nat /\
  forall i, In i (List.concat blocks) ->
            exists e, In e entries /\
                      Interaction.user_id i = Entry.user_id e /\
                      is_personalized e = true.
Proof.
  induction 1 as [| e b es bs Hb _ [IH1 IH2]]; simpl.
  - split; [lia | intros i []].
  - split.
    + rewrite length_app. pose proof (block_length e b Hb). lia.
    + intros i Hi. apply in_app_or in Hi. destruct Hi as [Hi | Hi].
      * destruct (block_owner e b i Hb Hi) as [H1 H2].
        exists e. split; [left; reflexivity | split; assumption].
      * destruct (IH2 i Hi) as (e' & Hin & H1 & H2).
        exists e'. split; [right; exact Hin | split; assumption].
Qed.

(** C10. In every cycle report the interactions list is made of one
    block per sampled user, in order; a block is empty, or one "view"
    entry, or a "view" entry followed by a "rate" entry that carries the
    'rating' key.  Every entry belongs to a sampled user whose
    recommendation result has status 'success' and a positive count,
    and the list has at most twice as many entries as there are sampled
    users. *)
Theorem interactions_at_most_two_per_user
        (self : RecommendationProbe) (w w' : World) (r : Report.t) :
  run_probe_cycle self w = (Ok r, w') ->
  (exists blocks,
      Report.interactions r = List.concat blocks /\
      Forall2 interactions_of_user (Report.recommendations r) blocks) /\
  (forall i, In i (Report.interactions r) ->
             exists e,
               In e (Report.recommendations r) /\
               Interaction.user_id i = Entry.user_id e /\
               In (Entry.user_id e) (test_users self) /\
               Rec.status (Entry.result e) = "success" /\
               (0 < Rec.recommendations_count (Entry.result e))%nat) /\
  (List.length (Report.interactions r)
   <= 2 * List.length (Report.recommendations r))%nat.
Proof.
  intros Hrun.
  destruct (run_probe_cycle_inv self w r w' Hrun)
    as [(_ & Hrecs & Hints & _) | (users & passes & calls & Hshape)].
  - rewrite Hrecs, Hints. split; [| split].
    + exists []. split; [reflexivity | constructor].
    + intros i [].
    + simpl. lia.
  - destruct Hshape as (_ & Hincl & _ & Hall & Hrecs & Hints & _).
    destruct (passes_block_shape self users passes Hall) as [Hblocks Husers].
    destruct (blocks_bound _ _ Hblocks) as [Hbound Howner].
    rewrite Hrecs, Hints. split; [| split].
    + exists (map pass_block passes). split; [reflexivity | exact Hblocks].
    + intros i Hi. destruct (Howner i Hi) as (e & Hin & Hid & Hp).
      exists e. split; [exact Hin |]. split; [exact Hid |].
      unfold is_personalized, is_success in Hp.
      apply andb_prop in Hp. destruct Hp as [Hs Hc].
      apply String.eqb_eq in Hs. apply Nat.ltb_lt in Hc.
      split; [| split; assumption].
      apply Hincl. rewrite <- Husers.
      apply in_map. exact Hin.
    + exact Hbound.
Qed.

Lemma interactions_at_most_two_per_user_witness :
  exists r w',
    run_probe_cycle local_probe
                    (world_of steady_service (fun _ => 9007199254740991%N))
    = (Ok r, w') /\
    List.length (Report.interactions r) = 10%nat /\
    (List.length (Report.interactions r)
     <= 2 * List.length (Report.recommendations r))%nat.
Proof.
  destruct (run_probe_cycle local_probe
              (world_of steady_service (fun _ => 9007199254740991%N)))
    as [[r | e] w'] eqn:Hrun.
  - assert (Hten : List.length (Report.interactions r) = 10%nat).
    { pose proof Hrun as H. vm_compute in H. inversion H. reflexivity. }
    destruct (interactions_at_most_two_per_user local_probe _ w' r Hrun)
      as (_ & _ & Hbound).
    exists r, w'. split; [reflexivity |]. split; [exact Hten | exact Hbound].
  - vm_compute in Hrun. discriminate.
Defined.

(* ================================================================== *)
(** ** Tracking calls, user by user *)

Section CallsByUser.

Variable self : RecommendationProbe.

Lemma recommend_not_track u user_id options :
  is_view_for u (recommend_request self user_id options) = false /\
  is_track_for u (recommend_request self user_id options) = false.
Proof. split; reflexivity. Qed.

Lemma view_request_for u user_id item_id ts :
  is_view_for u (track_request self user_id item_id "view" ts)
  = (user_id =? u) /\
  is_track_for u (track_request self user_id item_id "view" ts)
  = (user_id =? u).
Proof. split; reflexivity. Qed.

Lemma rate_request_for u user_id item_id ts :
  is_view_for u (track_request self user_id item_id "rate" ts) = false /\
  is_track_for u (track_request self user_id item_id "rate" ts)
  = (user_id =? u).
Proof. split; reflexivity. Qed.

Lemma count_calls_cons (f : Request -> bool) q calls :
  count_calls f (q :: calls)
  = ((if f q then 1 else 0) + count_calls f calls)%nat.
Proof. unfold count_calls. simpl. destruct (f q); reflexivity. Qed.

Lemma count_calls_nil (f : Request -> bool) : count_calls f [] = 0%nat.
Proof. reflexivity. Qed.

Ltac count_pass :=
  rewrite ?count_calls_cons, ?count_calls_nil,
    ?(proj1 (recommend_not_track _ _ _)), ?(proj2 (recommend_not_track _ _ _)),
    ?(proj1 (view_request_for _ _ _ _)), ?(proj2 (view_request_for _ _ _ _)),
    ?(proj1 (rate_request_for _ _ _ _)), ?(proj2 (rate_request_for _ _ _ _)).

(** The calls of a pass, seen from its own user. *)
Lemma pass_calls_own user_id p :
  pass_ok self user_id p ->
  count_calls (is_view_for user_id) (pass_calls p)
  = (if is_personalized (pass_entry p) then 1 else 0)%nat /\
  (is_personalized (pass_entry p) = false ->
   count_calls (is_track_for user_id) (pass_calls p) = 0%nat) /\
  (is_personalized (pass_entry p) = true ->
   exists item_id ts,
     first_item_id self (Entry.result (pass_entry p)) item_id /\
     In (track_request self user_id item_id "view" ts) (pass_calls p)).
Proof.
  unfold pass_ok. intros H.
  inversion H as [res loc tod Hp | res loc tod item viewed ts Hp Hitem
                  | res loc tod item viewed ts rating rated ts' Hp Hitem Hr];
    simpl pass_calls; rewrite Hp; count_pass; rewrite ?String.eqb_refl.
  - split; [reflexivity |]. split; [reflexivity | discriminate].
  - split; [reflexivity |]. split; [discriminate |].
    intros _. exists item, ts. split; [exact Hitem |].
    right. left. reflexivity.
  - split; [reflexivity |]. split; [discriminate |].
    intros _. exists item, ts. split; [exact Hitem |].
    right. left. reflexivity.
Qed.

(** The calls of a pass, seen from another user. *)
Lemma pass_calls_other u user_id p :
  pass_ok self user_id p -> user_id <> u ->
  count_calls (is_view_for u) (pass_calls p) = 0%nat /\
  count_calls (is_track_for u) (pass_calls p) = 0%nat.
Proof.
  unfold pass_ok. intros H Hne. apply String.eqb_neq in Hne.
  inversion H; simpl pass_calls; count_pass; rewrite ?Hne;
    split; reflexivity.
Qed.

Lemma passes_calls_other u users passes :
  Forall2 (pass_ok self) users passes -> ~ In u users ->
  count_calls (is_view_for u) (List.concat (map pass_calls passes)) = 0%nat /\
  count_calls (is_track_for u) (List.concat (map pass_calls passes)) = 0%nat.
Proof.
  induction 1 as [| u0 p us ps Hp _ IH]; intros Hnot; simpl.
  - split; reflexivity.
  - assert (Hne : u0 <> u) by (intros ->; apply Hnot; left; reflexivity).
    destruct (pass_calls_other u u0 p Hp Hne) as [H1 H2].
    destruct IH as [I1 I2]; [intros Hin; apply Hnot; right; exact Hin |].
    rewrite !count_calls_app, H1, H2, I1, I2. split; reflexivity.
Qed.

Lemma passes_calls_own users passes :
  Forall2 (pass_ok self) users passes -> NoDup users ->
  forall p, In p passes ->
    let u := Entry.user_id (pass_entry p) in
    let calls := List.concat (map pass_calls passes) in
    count_calls (is_view_for u) calls
    = (if is_personalized (pass_entry p) then 1 else 0)%nat /\
    (is_personalized (pass_entry p) = false ->
     count_calls (is_track_for u) calls = 0%nat) /\
    (is_personalized (pass_entry p) = true ->
     exists item_id ts,
       first_item_id self (Entry.result (pass_entry p)) item_id /\
       In (track_request self u item_id "view" ts) calls).
Proof.
  induction 1 as [| u0 p0 us ps Hp0 Hall IH]; intros Hnd p Hin.
  - destruct Hin.
  - inversion Hnd as [| ? ? Hfresh Hnd']; subst.
    simpl map. simpl List.concat. destruct Hin as [<- | Hin].
    + rewrite (pass_entry_user self u0 p0 Hp0).
      destruct (pass_calls_own u0 p0 Hp0) as (H1 & H2 & H3).
      destruct (passes_calls_other u0 us ps Hall Hfresh) as [O1 O2].
      cbv zeta. rewrite !count_calls_app, H1, O1, O2.
      split; [lia |]. split.
      * intros Hp. rewrite (H2 Hp). reflexivity.
      * intros Hp. destruct (H3 Hp) as (item & ts & Hitem & Hcall).
        exists item, ts. split; [exact Hitem |].
        apply in_or_app. left. exact Hcall.
    + destruct (IH Hnd' p Hin) as (H1 & H2 & H3).
      assert (Hu : In (Entry.user_id (pass_entry p)) us).
      { clear - Hall Hin. induction Hall as [| u q us' ps' Hq _ IHa].
        - destruct Hin.
        - destruct Hin as [<- | Hin].
          + left. symmetry. exact (pass_entry_user self u q Hq).
          + right. exact (IHa Hin). }
      assert (Hne : u0 <> Entry.user_id (pass_entry p))
        by (intros ->; exact (Hfresh Hu)).
      destruct (pass_calls_other _ u0 p0 Hp0 Hne) as [O1 O2].
      cbv zeta in *. rewrite !count_calls_app, O1, O2, H1.
      split; [reflexivity |]. split.
      * intros Hp. rewrite (H2 Hp). reflexivity.
      * intros Hp. destruct (H3 Hp) as (item & ts & Hitem & Hcall).
        exists item, ts. split; [exact Hitem |].
        apply in_or_app. right. exact Hcall.
Qed.

End CallsByUser.

(** C7, as the code has it. In a probe cycle that returns a report,
    with the users of the pool pairwise distinct (as [__init__] sets
    them), the sampled users are distinct users of the pool, one per
    result, and for each of them: the number of "view" tracking calls
    sent for the user is 1 when the result has status 'success' and a
    positive count and 0 otherwise; when it is sent, the call is for
    the 'itemId' of the first recommendation, or for an item of the pool
    when that recommendation has no such field; with a count of 0 no
    tracking call at all is sent for the user and the result is not
    among those [personalized_responses] counts. *)
Theorem view_call_iff_personalized
        (self : RecommendationProbe) (w w' : World) (r : Report.t) :
  NoDup (test_users self) ->
  run_probe_cycle self w = (Ok r, w') ->
  exists calls draws,
    moved calls draws w w' /\
    NoDup (map Entry.user_id (Report.recommendations r)) /\
    incl (map Entry.user_id (Report.recommendations r)) (test_users self) /\
    (Summary.status (Report.summary r) = "completed" ->
     Summary.personalized_responses (Report.summary r)
     = Some (List.length (filter is_personalized (Report.recommendations r)))) /\
    forall e, In e (Report.recommendations r) ->
      let u := Entry.user_id e in
      count_calls (fun q => is_track_call "view" q && is_for_user u q) calls
      = (if (Rec.status (Entry.result e) =? "success")
            && (0 <? Rec.recommendations_count (Entry.result e))%nat
         then 1%nat else 0%nat) /\
      (is_personalized e = true ->
       exists item_id ts,
         first_item_id self (Entry.result e) item_id /\
         In (track_request self u item_id "view" ts) calls) /\
      (Rec.recommendations_count (Entry.result e) = 0%nat ->
       is_personalized e = false /\
       count_calls (fun q => is_call_to "/track" q && is_for_user u q) calls
       = 0%nat).
Proof.
  intros Hpool Hrun.
  destruct (run_probe_cycle_inv self w r w' Hrun)
    as [(Hsum & Hrecs & _ & _ & _ & Hmoved)
       | (users & passes & calls & Hshape)].
  - exists [health_request self], 0%nat. rewrite Hrecs, Hsum.
    split; [exact Hmoved |]. split; [constructor |].
    split; [intros x [] |]. split; [discriminate |]. intros e [].
  - assert (Hsummary := completed_summary _ _ _ _ _ _ _ Hshape).
    destruct Hsummary as (_ & ct & Hsum).
    destruct Hshape as (_ & Hincl & Hnd & Hall & Hrecs & _
                        & (cu & _ & Hcalls) & (draws & Hmoved) & _).
    destruct (passes_block_shape self users passes Hall) as [_ Husers].
    exists calls, draws. rewrite Hrecs, Husers.
    split; [exact Hmoved |]. split; [exact (Hnd Hpool) |].
    split; [exact Hincl |]. split.
    { intros _. rewrite <- Hrecs. rewrite make_summary_run in Hsum.
      inversion Hsum. cbn [Summary.personalized_responses].
      rewrite count_if_filter. reflexivity. }
    intros e He. apply in_map_iff in He. destruct He as (p & <- & Hp).
    destruct (passes_calls_own self users passes Hall (Hnd Hpool) p Hp)
      as (H1 & H2 & H3).
    cbv zeta in *.
    set (u := Entry.user_id (pass_entry p)) in *.
    assert (Hview : count_calls (is_view_for u) calls
                    = count_calls (is_view_for u)
                                  (List.concat (map pass_calls passes))
                    /\ count_calls (is_track_for u) calls
                       = count_calls (is_track_for u)
                                     (List.concat (map pass_calls passes))).
    { rewrite Hcalls.
      change (health_request self
              :: List.concat (map pass_calls passes)
              ++ [compare_request self cu])
        with ([health_request self]
              ++ List.concat (map pass_calls passes)
              ++ [compare_request self cu]).
      rewrite !count_calls_app, !count_calls_single.
      change (is_view_for u (health_request self)) with false.
      change (is_track_for u (health_request self)) with false.
      change (is_view_for u (compare_request self cu)) with false.
      change (is_track_for u (compare_request self cu)) with false.
      split; lia. }
    destruct Hview as [Hv Ht].
    split; [| split].
    + change (count_calls (is_view_for u) calls
              = (if is_personalized (pass_entry p) then 1 else 0)%nat).
      rewrite Hv. exact H1.
    + intros Hpers. destruct (H3 Hpers) as (item & ts & Hitem & Hcall).
      exists item, ts. split; [exact Hitem |].
      rewrite Hcalls. right. apply in_or_app. left. exact Hcall.
    + intros Hzero.
      assert (Hnot : is_personalized (pass_entry p) = false).
      { unfold is_personalized. rewrite Hzero. apply andb_false_r. }
      split; [exact Hnot |].
      change (count_calls (is_track_for u) calls = 0%nat).
      rewrite Ht. exact (H2 Hnot).
Qed.

Lemma view_call_iff_personalized_witness :
  exists r w',
    run_probe_cycle local_probe (world_of steady_service (fun _ => 0%N))
    = (Ok r, w') /\
    map Entry.user_id (Report.recommendations r)
    = ["user_001"; "user_002"; "user_003"; "user_004"; "user_005"] /\
    forall e, In e (Report.recommendations r) ->
      count_calls (fun q => is_track_call "view" q
                            && is_for_user (Entry.user_id e) q) (trace w')
      = 1%nat.
Proof.
  assert (Hpool : NoDup (test_users local_probe)).
  { repeat (constructor; [simpl; intuition discriminate |]). constructor. }
  destruct (run_probe_cycle local_probe (world_of steady_service (fun _ => 0%N)))
    as [[r | e] w'] eqn:Hrun.
  - destruct (view_call_iff_personalized local_probe _ w' r Hpool Hrun)
      as (calls & draws & (Htrace & _) & _ & _ & _ & Hall).
    simpl in Htrace.
    assert (Hfacts :
              map Entry.user_id (Report.recommendations r)
              = ["user_001"; "user_002"; "user_003"; "user_004"; "user_005"]
              /\ forallb is_personalized (Report.recommendations r) = true).
    { pose proof Hrun as H. vm_compute in H. inversion H. split; reflexivity. }
    destruct Hfacts as [Husers Hpers].
    exists r, w'. split; [reflexivity |]. split; [exact Husers |].
    intros e0 He0. rewrite Htrace.
    destruct (Hall e0 He0) as (Hcount & _).
    rewrite Hcount.
    rewrite forallb_forall in Hpers. specialize (Hpers e0 He0).
    unfold is_personalized, is_success in Hpers. rewrite Hpers. reflexivity.
  - vm_compute in Hrun. discriminate.
Defined.

(** C7, as the claim states it, fails when the cycle does not return.
    The service lists bare item identifiers: the recommendation call of
    the first sampled user succeeds with one recommendation, reading the
    'itemId' of that recommendation raises, and the cycle ends with no
    tracking call sent. *)
Lemma bare_item_ids_abort_the_cycle :
  let w := world_of bare_ids_service (fun _ => 0%N) in
  let options := probe_options "NYC" "morning" in
  let before :=
    {| server := bare_ids_service;
       clock := clock w; wall := wall w; rand := rand w;
       trace := [health_request local_probe];
       clock_reads := 1; wall_reads := 1; rand_draws := 7 |} in
  exists res after w',
    get_recommendations local_probe "user_001" options before = (Ok res, after) /\
    Rec.status res = "success" /\
    Rec.recommendations_count res = 1%nat /\
    run_probe_cycle local_probe w
    = (Raise (mkExn "AttributeError" "'str' object has no attribute 'get'"), w') /\
    w' = after /\
    trace w' = [health_request local_probe;
                recommend_request local_probe "user_001" options] /\
    count_calls (fun q => is_track_call "view" q && is_for_user "user_001" q)
                (trace w') = 0%nat.
Proof.
  eexists. eexists. eexists.
  split; [vm_compute; reflexivity |].
  split; [reflexivity |]. split; [reflexivity |].
  split; [vm_compute; reflexivity |].
  split; [reflexivity |]. split; reflexivity.
Qed.

(* ================================================================== *)
(** ** The rating draw *)

(** C4, as the code has it. For a user whose recommendation result has
    status 'success' and a positive count, with a first recommendation
    that is an object and a non-empty item pool, the block sends the
    "view" call and then draws a number in [0, 1).  A draw above 0.7
    sends a second tracking call, of type "rate", for the same item and
    records a rating of 1..5 in the entry appended for it; a draw of at
    most 0.7 sends nothing after the "view" call. *)
Theorem rate_call_follows_draw_above_0_7
        (self : RecommendationProbe) (user_id : string) (res : Rec.t)
        (interactions : list Interaction.t) (w : World)
        (fields first : list (string * json)) (rest : list json)
        (pool_head : string) (pool_tail : list string) :
  Rec.status res = "success" ->
  (0 < Rec.recommendations_count res)%nat ->
  Rec.data res = Some (JObj fields) ->
  py_lookup fields "recommendations" = Some (JArr (JObj first :: rest)) ->
  test_items self = pool_head :: pool_tail ->
  let d := unit_float (rand w (S (rand_draws w))) in
  exists item_id viewed out w',
    first_item_id self res item_id /\
    track_some_interactions self user_id res interactions w = (Ok out, w') /\
    (float_0_7 < d ->
     exists rating rated ts',
       (1 <= rating <= 5)%Z /\
       out = interactions
             ++ [{| Interaction.user_id := user_id;
                    Interaction.item_id := item_id;
                    Interaction.rating := None;
                    Interaction.result := viewed |};
                 {| Interaction.user_id := user_id;
                    Interaction.item_id := item_id;
                    Interaction.rating := Some rating;
                    Interaction.result := rated |}] /\
       moved [track_request self user_id item_id "view" (wall w (wall_reads w));
              track_request self user_id item_id "rate" ts'] 3 w w') /\
    (d <= float_0_7 ->
     out = interactions
           ++ [{| Interaction.user_id := user_id;
                  Interaction.item_id := item_id;
                  Interaction.rating := None;
                  Interaction.result := viewed |}] /\
     moved [track_request self user_id item_id "view" (wall w (wall_reads w))]
           2 w w').
Proof.
  intros Hs Hc Hdata Hrecs Hpool d.
  assert (Hpers : is_personalized (Entry.mk user_id res) = true).
  { unfold is_personalized, is_success. simpl. rewrite Hs.
    apply Nat.ltb_lt in Hc. rewrite Hc. reflexivity. }
  destruct (track_some_interactions_run self user_id res interactions w
              fields first rest pool_head pool_tail Hpers Hdata Hrecs Hpool)
    as (viewed & Hviewed & Hblock).
  set (fallback := nth (below (rand w (rand_draws w))
                              (List.length (test_items self)))
                       (test_items self) pool_head) in *.
  set (item_id := field_or first "itemId" (JStr fallback)) in *.
  set (view_call := track_request self user_id item_id "view"
                                  (wall w (wall_reads w))) in *.
  set (w1 := with_call view_call (tick_wall (tick_rand w))) in *.
  assert (Hitem : first_item_id self res item_id).
  { exists fields, first, rest. split; [exact Hdata |].
    split; [exact Hrecs |].
    subst item_id. unfold field_or.
    destruct (py_lookup first "itemId"); [reflexivity |].
    exists fallback. split; [| reflexivity].
    subst fallback. apply nth_In. apply below_lt.
    rewrite Hpool. discriminate. }
  assert (Hview : moved [view_call] 1 w w1).
  { exact (moved_trans [] 1 _ 0 _ _ _ (moved_tick_rand w)
                       (track_interaction_moved self user_id item_id
                                                "view" (tick_rand w))). }
  exists item_id, viewed.
  destruct (simulate_rating_run self user_id item_id
              (interactions ++ [view_entry user_id item_id viewed]) w1)
    as [[Hlow Hrun] | [Hhigh (rating & rated & w2 & Hrange & Hrun & Hrate)]];
    change (unit_float (rand w1 (rand_draws w1))) with d in *.
  - exists (interactions ++ [view_entry user_id item_id viewed]), (tick_rand w1).
    split; [exact Hitem |]. split; [rewrite Hblock; exact Hrun |]. split.
    + intros Habove. exfalso. exact (Qlt_not_le _ _ Habove Hlow).
    + intros _. split; [reflexivity |].
      exact (moved_trans _ _ [] 1 _ _ _ Hview (moved_tick_rand w1)).
  - exists (interactions ++ [view_entry user_id item_id viewed]
            ++ [rate_entry user_id item_id rating rated]), w2.
    split; [exact Hitem |]. split.
    + rewrite Hblock, Hrun, <- app_assoc. reflexivity.
    + split.
      * intros _. exists rating, rated, (wall w1 (wall_reads w1)).
        split; [exact Hrange |]. split; [reflexivity |].
        exact (moved_trans _ _ _ _ _ _ _ Hview Hrate).
      * intros Hle. exfalso. exact (Qlt_not_le _ _ Hhigh Hle).
Qed.

Lemma rate_call_follows_draw_above_0_7_witness :
  let res :=
    {| Rec.status := "success";
       Rec.response_time := Some 1;
       Rec.recommendations_count := 1;
       Rec.model_used := Some (JStr "collab-v2");
       Rec.request_id := Some (JStr "r1");
       Rec.latency := Some (JInt 12);
       Rec.data := Some (JObj one_recommendation);
       Rec.error := None |} in
  let w := world_of steady_service (fun _ => 9007199254740991%N) in
  float_0_7 < unit_float (rand w (S (rand_draws w))) /\
  exists out w',
    track_some_interactions local_probe "user_001" res [] w = (Ok out, w') /\
    map Interaction.rating out = [None; Some 2%Z] /\
    map req_path (trace w') = ["/track"; "/track"].
Proof.
  intros res w. split; [reflexivity |].
  destruct (rate_call_follows_draw_above_0_7
              local_probe "user_001" res [] w
              one_recommendation [("itemId", JStr "ride_003")] []
              "ride_001"
              ["ride_002"; "ride_003"; "ride_004"; "ride_005"; "ride_006";
               "ride_007"; "ride_008"; "ride_009"; "ride_010"]
              eq_refl (Nat.lt_0_1) eq_refl eq_refl eq_refl)
    as (item_id & viewed & out & w' & _ & Hrun & _).
  exists out, w'. split; [exact Hrun |].
  vm_compute in Hrun. inversion Hrun. split; reflexivity.
Defined.

(** C4, as the claim states it, fails in both directions.  With every
    draw at 0, below 0.3, the cycle sends its five "view" calls and no
    "rate" call; with every draw at the largest float below 1, above
    0.3, each "view" call is followed by a "rate" call. *)
Lemma draw_below_0_3_sends_no_rate_call :
  let low := world_of steady_service (fun _ => 0%N) in
  let high := world_of steady_service (fun _ => 9007199254740991%N) in
  exists r w' r2 w2,
    (forall n, unit_float (rand low n) < 3 # 10) /\
    run_probe_cycle local_probe low = (Ok r, w') /\
    map Interaction.rating (Report.interactions r)
    = [None; None; None; None; None] /\
    count_calls (is_track_call "view") (trace w') = 5%nat /\
    count_calls (is_track_call "rate") (trace w') = 0%nat /\
    (forall n, 3 # 10 < unit_float (rand high n)) /\
    run_probe_cycle local_probe high = (Ok r2, w2) /\
    count_calls (is_track_call "view") (trace w2) = 5%nat /\
    count_calls (is_track_call "rate") (trace w2) = 5%nat.
Proof.
  eexists. eexists. eexists. eexists.
  split; [intros n; reflexivity |].
  split; [vm_compute; reflexivity |].
  split; [reflexivity |]. split; [reflexivity |]. split; [reflexivity |].
  split; [intros n; reflexivity |].
  split; [vm_compute; reflexivity |].
  split; reflexivity.
Qed.

(* ================================================================== *)
(** ** Scenarios *)

(** The health check is answered 500: the cycle fails and [/health] is
    the only endpoint called. *)
Example health_500_stops_the_cycle :
  exists r w',
    run_probe_cycle local_probe (world_of health_500_service (fun _ => 0%N))
    = (Ok r, w') /\
    Health.status (Report.health_check r) = "unhealthy" /\
    Health.error (Report.health_check r) = Some "500 Server Error" /\
    Report.summary r = failed_summary /\
    map req_path (trace w') = ["/health"].
Proof.
  eexists. eexists. split; [vm_compute; reflexivity |].
  repeat split.
Qed.

(** One recommendation with an 'itemId': the result counts it, names the
    model, and the only tracking call for the user is one "view" call
    for that item. *)
Example one_recommendation_is_viewed_once :
  exists r w' rest,
    run_probe_cycle local_probe (world_of steady_service (fun _ => 0%N))
    = (Ok r, w') /\
    Report.recommendations r
    = {| Entry.user_id := "user_001";
         Entry.result :=
           {| Rec.status := "success";
              Rec.response_time := Some (2 - 1);
              Rec.recommendations_count := 1;
              Rec.model_used := Some (JStr "collab-v2");
              Rec.request_id := Some (JStr "r1");
              Rec.latency := Some (JInt 12);
              Rec.data := Some (JObj one_recommendation);
              Rec.error := None |} |} :: rest /\
    filter (is_track_for "user_001") (trace w')
    = [track_request local_probe "user_001" (JStr "ride_003") "view"
                     "2024-01-01T00:00:00"].
Proof.
  eexists. eexists. eexists. split; [vm_compute; reflexivity |].
  split; reflexivity.
Qed.

(** An empty recommendation list: the count is 0, nothing is tracked and
    no response is personalized. *)
Example empty_recommendations_are_not_tracked :
  exists r w',
    run_probe_cycle local_probe (world_of empty_list_service (fun _ => 0%N))
    = (Ok r, w') /\
    map (fun e => Rec.recommendations_count (Entry.result e))
        (Report.recommendations r) = [0; 0; 0; 0; 0]%nat /\
    Report.interactions r = [] /\
    count_calls (is_call_to "/track") (trace w') = 0%nat /\
    Summary.successful_recommendations (Report.summary r) = Some 5%nat /\
    Summary.personalized_responses (Report.summary r) = Some 0%nat.
Proof.
  eexists. eexists. split; [vm_compute; reflexivity |].
  repeat split.
Qed.

(* ================================================================== *)
(** ** The base URL *)

Lemma rstrip_slash_cons (c : ascii) (rest : string) :
  rstrip_slash (String c rest) =
  match rstrip_slash rest with
  | EmptyString => if Ascii.eqb c "/"%char then EmptyString
                   else String c EmptyString
  | String a kept => String c (String a kept)
  end.
Proof. reflexivity. Qed.

Lemma rstrip_slash_slashes (k : nat) : rstrip_slash (slashes k) = EmptyString.
Proof.
  induction k as [| k IH]; simpl.
  - reflexivity.
  - rewrite IH. reflexivity.
Qed.

Lemma rstrip_slash_split (s : string) :
  exists k, s = (rstrip_slash s ++ slashes k)%string.
Proof.
  induction s as [| c rest [k IH]].
  - exists 0%nat. reflexivity.
  - simpl. destruct (rstrip_slash rest) as [| a kept] eqn:Hrest.
    + simpl in IH. destruct (Ascii.eqb_spec c "/"%char) as [-> | _].
      * exists (S k). simpl. rewrite <- IH. reflexivity.
      * exists k. simpl. rewrite <- IH. reflexivity.
    + exists k. simpl. simpl in IH. rewrite <- IH. reflexivity.
Qed.

Lemma rstrip_slash_clean (s : string) :
  ends_with_slash (rstrip_slash s) = false.
Proof.
  induction s as [| c rest IH].
  - reflexivity.
  - simpl. destruct (rstrip_slash rest) as [| a kept] eqn:Hrest.
    + destruct (Ascii.eqb_spec c "/"%char) as [-> | Hc].
      * reflexivity.
      * simpl. apply Ascii.eqb_neq. exact Hc.
    + exact IH.
Qed.

Lemma rstrip_slash_joined (b : string) (k : nat) :
  ends_with_slash b = false -> rstrip_slash (b ++ slashes k)%string = b.
Proof.
  induction b as [| c rest IH]; intros Hb.
  - apply rstrip_slash_slashes.
  - destruct rest as [| a rest'].
    + simpl in Hb. simpl. rewrite rstrip_slash_slashes, Hb. reflexivity.
    + change (ends_with_slash (String a rest') = false) in Hb.
      change (String c (String a rest') ++ slashes k)%string
        with (String c (String a rest' ++ slashes k)%string).
      rewrite rstrip_slash_cons, (IH Hb). reflexivity.
Qed.

(** X1. The constructor strips every trailing slash of the url it is
    given and nothing else: the url is the stored base followed by
    slashes only, the base does not end in a slash, and the base is the
    only string with these two properties.  A url already stripped is
    stored as it is. *)
Theorem init_strips_trailing_slashes (url : string) :
  let base := api_base_url (init url) in
  ends_with_slash base = false /\
  (exists k, url = (base ++ slashes k)%string) /\
  (forall b k, ends_with_slash b = false -> url = (b ++ slashes k)%string -> b = base) /\
  api_base_url (init base) = base.
Proof.
  simpl. split; [apply rstrip_slash_clean |].
  split; [apply rstrip_slash_split |]. split.
  - intros b k Hb ->. symmetry. apply rstrip_slash_joined. exact Hb.
  - assert (H : forall s, (s ++ EmptyString)%string = s).
    { induction s as [| c s IH]; simpl; [reflexivity | rewrite IH; reflexivity]. }
    pose proof (rstrip_slash_joined (rstrip_slash url) 0
                                    (rstrip_slash_clean url)) as H0.
    change (slashes 0) with EmptyString in H0. rewrite H in H0. exact H0.
Qed.

(* ================================================================== *)
(** ** The four operations, case by case *)

Lemma code_test_true (resp : Response) :
  ((400 <=? status_code resp)%Z && (status_code resp <? 600)%Z) = true ->
  (400 <= status_code resp < 600)%Z.
Proof.
  intros H. apply andb_prop in H. destruct H as [H1 H2].
  apply Z.leb_le in H1. apply Z.ltb_lt in H2. lia.
Qed.

Lemma code_test_false (resp : Response) :
  ((400 <=? status_code resp)%Z && (status_code resp <? 600)%Z) = false ->
  ~ (400 <= status_code resp < 600)%Z.
Proof.
  intros H [H1 H2]. apply Z.leb_le in H1. apply Z.ltb_lt in H2.
  rewrite H1, H2 in H. discriminate.
Qed.

(** Close a goal that contradicts what is known of the answer. *)
Ltac refute_answer :=
  let resp := fresh "resp" in
  let fields := fresh "fields" in
  let Ho := fresh "Ho" in
  let Hc := fresh "Hc" in
  let Hb := fresh "Hb" in
  intros (resp & fields & (Ho & Hc & Hb) & _);
  try discriminate Ho;
  inversion Ho; subst;
  try (match goal with
       | Ht : (_ && _) = true |- _ => apply code_test_true in Ht
       end; contradiction);
  try congruence.

Section OperationCases.

Variable self : RecommendationProbe.

Lemma get_recommendations_cases user_id options w res w' :
  get_recommendations self user_id options w = (Ok res, w') ->
  let o := answer (tick_clock w) (recommend_request self user_id options) in
  (exists resp fields count,
      answered_object o resp fields /\
      py_len (field_or fields "recommendations" (JArr [])) = Ok count /\
      res = rec_success (clock w (S (clock_reads w)) - clock w (clock_reads w))
                        fields count) \/
  ((exists message, res = rec_failure message) /\
   ~ (exists resp fields,
         answered_object o resp fields /\
         exists count,
           py_len (field_or fields "recommendations" (JArr [])) = Ok count)).
Proof.
  intros H o. revert H.
  unfold get_recommendations, try_except, bind, session_post, send,
    raise_for_status, response_json, time_time, lift, raise, ret.
  fold (recommend_request self user_id options). fold o.
  destruct o as [e | resp] eqn:Ho; simpl.
  - intros H. inversion H; subst. right.
    split; [eexists; reflexivity | refute_answer].
  - destruct ((400 <=? status_code resp)%Z && (status_code resp <? 600)%Z)
      eqn:Hcode; simpl.
    + intros H. inversion H; subst. right.
      split; [eexists; reflexivity | refute_answer].
    + apply code_test_false in Hcode.
      destruct (body resp) as [data |] eqn:Hbody; simpl.
      * destruct data as [| b | z | q | s | items | fields];
          try (intros H; inversion H; subst; right;
               split; [eexists; reflexivity | refute_answer]).
        rewrite !py_get_object.
        destruct (py_len (field_or fields "recommendations" (JArr [])))
          as [count | e] eqn:Hlen; simpl.
        -- intros H. inversion H; subst. left.
           exists resp, fields, count.
           split; [split; [reflexivity | split; assumption] |].
           split; [exact Hlen | reflexivity].
        -- intros H. inversion H; subst. right.
           split; [eexists; reflexivity |].
           intros (resp0 & fields0 & (Ho0 & _ & Hb0) & count & Hc0).
           inversion Ho0; subst. rewrite Hbody in Hb0.
           inversion Hb0; subst. rewrite Hlen in Hc0. discriminate.
      * intros H. inversion H; subst. right.
        split; [eexists; reflexivity | refute_answer].
Qed.

(** X2. [get_recommendations] returns a 'success' record exactly when
    the request is answered, the status is not an error class, the body
    is a JSON object and what it holds under 'recommendations' (an empty
    list when absent) has a length.  The record then carries that
    length, the body and the time between the two clock readings; in
    every other case, [{"recommendations": null}] included, the result
    is the error record. *)
Theorem recommendation_succeeds_exactly_when
        (user_id : string) (options : json) (w : World) :
  let o := answer (tick_clock w) (recommend_request self user_id options) in
  let sized fields count :=
    py_len (field_or fields "recommendations" (JArr [])) = Ok count in
  exists res w',
    get_recommendations self user_id options w = (Ok res, w') /\
    (Rec.status res = "success" <->
     exists resp fields count,
       answered_object o resp fields /\ sized fields count) /\
    (forall resp fields count,
        answered_object o resp fields -> sized fields count ->
        res = rec_success
                (clock w (S (clock_reads w)) - clock w (clock_reads w))
                fields count) /\
    (Rec.status res <> "success" -> exists message, res = rec_failure message).
Proof.
  intros o sized.
  destruct (get_recommendations_run self user_id options w)
    as (res & w' & Hrun & _).
  exists res, w'. split; [exact Hrun |].
  pose proof (get_recommendations_cases _ _ _ _ _ Hrun) as Hcases.
  cbv zeta in Hcases. fold o in Hcases.
  destruct Hcases as [(resp & fields & count & Hobj & Hlen & ->)
                     | ((message & ->) & Hnot)].
  - split; [| split].
    + split; [intros _; exists resp, fields, count; split; assumption
             | reflexivity].
    + intros resp0 fields0 count0 (Ho0 & _ & Hb0) Hlen0.
      destruct Hobj as (Ho & _ & Hb). rewrite Ho in Ho0.
      inversion Ho0; subst resp0. rewrite Hb in Hb0.
      inversion Hb0; subst fields0. unfold sized in Hlen0.
      rewrite Hlen in Hlen0. inversion Hlen0. reflexivity.
    + intros Hne. exfalso. apply Hne. reflexivity.
  - split; [| split].
    + split; [discriminate |].
      intros (resp & fields & count & Hobj & Hlen). exfalso.
      apply Hnot. exists resp, fields. split; [exact Hobj |].
      exists count. exact Hlen.
    + intros resp fields count Hobj Hlen. exfalso.
      apply Hnot. exists resp, fields. split; [exact Hobj |].
      exists count. exact Hlen.
    + intros _. exists message. reflexivity.
Qed.

(** X3. [health_check] sends one [GET /health] and never raises.  It
    reports 'healthy' exactly when the request is answered with a status
    that is not an error class and a body that parses, whatever JSON
    value that body is; the result then holds the transport's elapsed
    time and the body.  Otherwise it is
    [{status: 'unhealthy', error: <message>, response_time: None}]. *)
Theorem health_check_healthy_exactly_when (w : World) :
  let o := answer w (health_request self) in
  exists h,
    health_check self w = (Ok h, with_call (health_request self) w) /\
    (Health.status h = "healthy" <->
     exists resp data,
       o = Answered resp /\
       ~ (400 <= status_code resp < 600)%Z /\
       body resp = Some data) /\
    (forall resp data,
        o = Answered resp -> body resp = Some data ->
        Health.status h = "healthy" ->
        h = {| Health.status := "healthy";
               Health.response_time := Some (elapsed resp);
               Health.data := Some data;
               Health.error := None |}) /\
    (Health.status h <> "healthy" ->
     exists message,
       h = {| Health.status := "unhealthy";
              Health.error := Some message;
              Health.response_time := None;
              Health.data := None |}).
Proof.
  intros o.
  unfold health_check, try_except, bind, session_get, send, raise_for_status,
    response_json, raise, ret.
  fold (health_request self). fold o.
  destruct o as [e | resp] eqn:Ho; simpl.
  - eexists. split; [reflexivity |]. split; [| split].
    + split; [discriminate | intros (r & d & H & _); discriminate H].
    + intros r d H. discriminate H.
    + intros _. eexists. reflexivity.
  - destruct ((400 <=? status_code resp)%Z && (status_code resp <? 600)%Z)
      eqn:Hcode; simpl.
    + apply code_test_true in Hcode.
      eexists. split; [reflexivity |]. split; [| split].
      * split; [discriminate |].
        intros (r & d & H & Hc & _). inversion H; subst. contradiction.
      * intros r d _ _ H. discriminate H.
      * intros _. eexists. reflexivity.
    + apply code_test_false in Hcode.
      destruct (body resp) as [data |] eqn:Hbody; simpl.
      * eexists. split; [reflexivity |]. split; [| split].
        -- split; [| reflexivity].
           intros _. exists resp, data. repeat split; assumption.
        -- intros r d H Hb _. inversion H; subst.
           rewrite Hbody in Hb. inversion Hb. reflexivity.
        -- intros Hne. exfalso. apply Hne. reflexivity.
      * eexists. split; [reflexivity |]. split; [| split].
        -- split; [discriminate |].
           intros (r & d & H & _ & Hb). inversion H; subst.
           rewrite Hbody in Hb. discriminate.
        -- intros r d _ _ H. discriminate H.
        -- intros _. eexists. reflexivity.
Qed.

(** X4. [track_interaction] reads the wall clock once, sends one
    [POST /track] whose body names the user, the item, the interaction
    type, the source 'probe' and that timestamp, and never raises.  It
    reports 'success' exactly when the request is answered with a status
    that is not an error class and a body that is a JSON object; the
    result then echoes the body's 'interaction' (an empty object when
    absent) with the transport's elapsed time.  Otherwise it is
    [{status: 'error', error: <message>}], with no response time. *)
Theorem track_interaction_succeeds_exactly_when
        (user_id : string) (item_id : json) (kind : string) (w : World) :
  let request :=
    track_request self user_id item_id kind (wall w (wall_reads w)) in
  let o := answer (tick_wall w) request in
  exists t,
    track_interaction self user_id item_id kind w
    = (Ok t, with_call request (tick_wall w)) /\
    (Track.status t = "success" <->
     exists resp fields, answered_object o resp fields) /\
    (forall resp fields,
        answered_object o resp fields ->
        t = {| Track.status := "success";
               Track.interaction :=
                 Some (field_or fields "interaction" (JObj []));
               Track.response_time := Some (elapsed resp);
               Track.error := None |}) /\
    (Track.status t <> "success" ->
     exists message,
       t = {| Track.status := "error";
              Track.error := Some message;
              Track.interaction := None;
              Track.response_time := None |}).
Proof.
  intros request o.
  unfold track_interaction, try_except, bind, session_post, send,
    raise_for_status, response_json, datetime_now_isoformat, lift, raise, ret.
  fold (track_request self user_id item_id kind (wall w (wall_reads w))).
  fold request. fold o.
  destruct o as [e | resp] eqn:Ho; simpl.
  - eexists. split; [reflexivity |]. split; [| split].
    + split; [discriminate | intros (r & f & H & _); discriminate H].
    + intros r f (H & _). discriminate H.
    + intros _. eexists. reflexivity.
  - destruct ((400 <=? status_code resp)%Z && (status_code resp <? 600)%Z)
      eqn:Hcode; simpl.
    + apply code_test_true in Hcode.
      eexists. split; [reflexivity |]. split; [| split].
      * split; [discriminate |].
        intros (r & f & H & Hc & _). inversion H; subst. contradiction.
      * intros r f (H & Hc & _). inversion H; subst. contradiction.
      * intros _. eexists. reflexivity.
    + apply code_test_false in Hcode.
      destruct (body resp) as [data |] eqn:Hbody; simpl.
      * destruct data as [| b | z | q | s | items | fields];
          try (eexists; split; [reflexivity |]; split; [| split];
               [ split; [discriminate |];
                 intros (r & f & H & _ & Hb); inversion H; subst;
                 rewrite Hbody in Hb; discriminate
               | intros r f (H & _ & Hb); inversion H; subst;
                 rewrite Hbody in Hb; discriminate
               | intros _; eexists; reflexivity ]).
        rewrite py_get_object. simpl.
        eexists. split; [reflexivity |]. split; [| split].
        -- split; [| reflexivity].
           intros _. exists resp, fields. repeat split; assumption.
        -- intros r f (H & _ & Hb). inversion H; subst.
           rewrite Hbody in Hb. inversion Hb. reflexivity.
        -- intros Hne. exfalso. apply Hne. reflexivity.
      * eexists. split; [reflexivity |]. split; [| split].
        -- split; [discriminate |].
           intros (r & f & H & _ & Hb). inversion H; subst.
           rewrite Hbody in Hb. discriminate.
        -- intros r f (H & _ & Hb). inversion H; subst.
           rewrite Hbody in Hb. discriminate.
        -- intros _. eexists. reflexivity.
Qed.

(** X5. [compare_models] sends one [POST /models/compare] asking for 5
    recommendations and never raises.  It reports 'success' exactly when
    the request is answered with a status that is not an error class,
    the body is a JSON object and what it holds under 'comparison' (an
    empty object when absent) has a length; [models_compared] is that
    length, the number of distinct keys when it is an object, and
    [total_time] is the body's 'totalComparisonTime', 0 when absent.
    Otherwise the result is [{status: 'error', error: <message>}]. *)
Theorem compare_models_succeeds_exactly_when (user_id : string) (w : World) :
  let request := compare_request self user_id in
  let o := answer w request in
  let sized fields count :=
    py_len (field_or fields "comparison" (JObj [])) = Ok count in
  exists c,
    compare_models self user_id w = (Ok c, with_call request w) /\
    req_json request
    = Some (JObj [("userId", JStr user_id);
                  ("options", JObj [("numRecommendations", JInt 5)])]) /\
    (Compare.status c = "success" <->
     exists resp fields count,
       answered_object o resp fields /\ sized fields count) /\
    (forall resp fields count,
        answered_object o resp fields -> sized fields count ->
        c = {| Compare.status := "success";
               Compare.models_compared := Some count;
               Compare.total_time :=
                 Some (field_or fields "totalComparisonTime" (JInt 0));
               Compare.data := Some (JObj fields);
               Compare.error := None |}) /\
    (Compare.status c <> "success" ->
     exists message,
       c = {| Compare.status := "error";
              Compare.error := Some message;
              Compare.models_compared := None;
              Compare.total_time := None;
              Compare.data := None |}).
Proof.
  intros request o sized.
  unfold compare_models, try_except, bind, session_post, send,
    raise_for_status, response_json, lift, raise, ret.
  fold (compare_request self user_id). fold request. fold o.
  destruct o as [e | resp] eqn:Ho; simpl.
  - eexists. split; [reflexivity |]. split; [reflexivity |]. split; [| split].
    + split; [discriminate | intros (r & f & n & (H & _) & _); discriminate H].
    + intros r f n (H & _). discriminate H.
    + intros _. eexists. reflexivity.
  - destruct ((400 <=? status_code resp)%Z && (status_code resp <? 600)%Z)
      eqn:Hcode; simpl.
    + apply code_test_true in Hcode.
      eexists. split; [reflexivity |]. split; [reflexivity |].
      split; [| split].
      * split; [discriminate |].
        intros (r & f & n & (H & Hc & _) & _). inversion H; subst.
        contradiction.
      * intros r f n (H & Hc & _). inversion H; subst. contradiction.
      * intros _. eexists. reflexivity.
    + apply code_test_false in Hcode.
      destruct (body resp) as [data |] eqn:Hbody; simpl.
      * destruct data as [| b | z | q | s | items | fields];
          try (eexists; split; [reflexivity |]; split; [reflexivity |];
               split; [| split];
               [ split; [discriminate |];
                 intros (r & f & n & (H & _ & Hb) & _); inversion H; subst;
                 rewrite Hbody in Hb; discriminate
               | intros r f n (H & _ & Hb); inversion H; subst;
                 rewrite Hbody in Hb; discriminate
               | intros _; eexists; reflexivity ]).
        rewrite !py_get_object.
        destruct (py_len (field_or fields "comparison" (JObj [])))
          as [count | e] eqn:Hlen; simpl.
        -- eexists. split; [reflexivity |]. split; [reflexivity |].
           split; [| split].
           ++ split; [| reflexivity].
              intros _. exists resp, fields, count.
              split; [repeat split; assumption | exact Hlen].
           ++ intros r f n (H & _ & Hb) Hn. inversion H; subst.
              rewrite Hbody in Hb. inversion Hb; subst.
              unfold sized in Hn. rewrite Hlen in Hn. inversion Hn.
              reflexivity.
           ++ intros Hne. exfalso. apply Hne. reflexivity.
        -- eexists. split; [reflexivity |]. split; [reflexivity |].
           split; [| split].
           ++ split; [discriminate |].
              intros (r & f & n & (H & _ & Hb) & Hn). inversion H; subst.
              rewrite Hbody in Hb. inversion Hb; subst.
              unfold sized in Hn. rewrite Hlen in Hn. discriminate.
           ++ intros r f n (H & _ & Hb) Hn. inversion H; subst.
              rewrite Hbody in Hb. inversion Hb; subst.
              unfold sized in Hn. rewrite Hlen in Hn. discriminate.
           ++ intros _. eexists. reflexivity.
      * eexists. split; [reflexivity |]. split; [reflexivity |].
        split; [| split].
        -- split; [discriminate |].
           intros (r & f & n & (H & _ & Hb) & _). inversion H; subst.
           rewrite Hbody in Hb. discriminate.
        -- intros r f n (H & _ & Hb). inversion H; subst.
           rewrite Hbody in Hb. discriminate.
        -- intros _. eexists. reflexivity.
Qed.

End OperationCases.

(* ================================================================== *)
(** ** The report and the trace of a cycle *)

Lemma completed_status (self : RecommendationProbe) w w' r sampled passes calls :
  completed_shape self w w' r sampled passes calls ->
  Summary.status (Report.summary r) = "completed" /\
  Summary.reason (Report.summary r) = None.
Proof.
  intros Hshape.
  destruct (completed_summary _ _ _ _ _ _ _ Hshape) as (_ & ct & Hsum).
  rewrite make_summary_run in Hsum. inversion Hsum. split; reflexivity.
Qed.

(** X6. Every report is of one of two kinds.  Either the health check
    was 'healthy', the summary is 'completed' with no reason and a
    model comparison is there; or the health check was not 'healthy',
    the summary is 'failed' with reason 'API unhealthy', both lists are
    empty and the model comparison is still the empty dict. *)
Theorem report_is_completed_or_failed
        (self : RecommendationProbe) (w w' : World) (r : Report.t) :
  run_probe_cycle self w = (Ok r, w') ->
  (Health.status (Report.health_check r) = "healthy" /\
   Summary.status (Report.summary r) = "completed" /\
   Summary.reason (Report.summary r) = None /\
   Report.model_comparison r <> None) \/
  (Health.status (Report.health_check r) <> "healthy" /\
   Summary.status (Report.summary r) = "failed" /\
   Summary.reason (Report.summary r) = Some "API unhealthy" /\
   Report.model_comparison r = None /\
   Report.recommendations r = [] /\
   Report.interactions r = []).
Proof.
  intros Hrun.
  destruct (run_probe_cycle_inv self w r w' Hrun)
    as [(Hsum & Hrecs & Hints & Hcmp & Hbad & _)
       | (users & passes & calls & Hshape)].
  - right. rewrite Hsum. repeat split; assumption.
  - left. destruct (completed_status _ _ _ _ _ _ _ Hshape) as [Hs Hr].
    destruct Hshape as (_ & _ & _ & _ & _ & _ & _ & _ & _ & Hok & Hcmp).
    repeat split; assumption.
Qed.

Lemma report_is_completed_or_failed_witness :
  exists r w',
    run_probe_cycle local_probe (world_of health_500_service (fun _ => 0%N))
    = (Ok r, w') /\
    Summary.status (Report.summary r) = "failed" /\
    Report.model_comparison r = None.
Proof.
  destruct (run_probe_cycle local_probe
              (world_of health_500_service (fun _ => 0%N)))
    as [[r | e] w'] eqn:Hrun.
  - exists r, w'. split; [reflexivity |].
    destruct (report_is_completed_or_failed local_probe _ w' r Hrun)
      as [(Hok & _) | (_ & Hs & _ & Hc & _)].
    + exfalso. pose proof Hrun as H. vm_compute in H. inversion H; subst.
      discriminate Hok.
    + split; assumption.
  - vm_compute in Hrun. discriminate.
Defined.

(** X7. The requests of a completed cycle are sent one after the other
    in this order: the health request; then, for each result of the
    report in order, that user's recommendation request followed by the
    tracking requests of the user's entries ("view", then "rate"); and
    last the comparison request, for one of the sampled users. *)
Theorem requests_follow_the_cycle_order
        (self : RecommendationProbe) (w w' : World) (r : Report.t) :
  run_probe_cycle self w = (Ok r, w') ->
  Summary.status (Report.summary r) = "completed" ->
  exists passes comparison_user,
    Report.recommendations r = map pass_entry passes /\
    Report.interactions r = List.concat (map pass_block passes) /\
    Forall (fun p => user_pass self (Entry.user_id (pass_entry p))
                               (pass_entry p) (pass_block p) (pass_calls p))
           passes /\
    In comparison_user (map Entry.user_id (Report.recommendations r)) /\
    trace w' = trace w
               ++ health_request self
               :: List.concat (map pass_calls passes)
               ++ [compare_request self comparison_user].
Proof.
  intros Hrun Hdone.
  destruct (run_probe_cycle_inv self w r w' Hrun)
    as [Hfailed | (users & passes & calls & Hshape)].
  - exfalso. exact (failed_not_completed _ _ _ _ Hfailed Hdone).
  - destruct Hshape as (_ & _ & _ & Hall & Hrecs & Hints
                        & (cu & Hcu & Hcalls) & (draws & Hmoved & _) & _).
    destruct (passes_block_shape self users passes Hall) as [_ Husers].
    exists passes, cu. split; [exact Hrecs |]. split; [exact Hints |].
    split; [| split].
    + clear - Hall. induction Hall as [| u p us ps Hp _ IH]; constructor.
      * rewrite (pass_entry_user self u p Hp). exact Hp.
      * exact IH.
    + rewrite Hrecs, Husers. exact Hcu.
    + rewrite Hmoved, Hcalls. reflexivity.
Qed.

Lemma requests_follow_the_cycle_order_witness :
  exists r w',
    run_probe_cycle local_probe (world_of steady_service (fun _ => 0%N))
    = (Ok r, w') /\
    map req_path (trace w')
    = ["/health"; "/recommend"; "/track"; "/recommend"; "/track";
       "/recommend"; "/track"; "/recommend"; "/track"; "/recommend";
       "/track"; "/models/compare"].
Proof.
  destruct (run_probe_cycle local_probe (world_of steady_service (fun _ => 0%N)))
    as [[r | e] w'] eqn:Hrun.
  - assert (Hdone : Summary.status (Report.summary r) = "completed").
    { pose proof Hrun as H. vm_compute in H. inversion H. reflexivity. }
    destruct (requests_follow_the_cycle_order local_probe _ w' r Hrun Hdone)
      as (passes & cu & _ & _ & _ & _ & _).
    exists r, w'. split; [reflexivity |].
    pose proof Hrun as H. vm_compute in H. inversion H. reflexivity.
  - vm_compute in Hrun. discriminate.
Defined.

Lemma pass_tracking_payload (self : RecommendationProbe) (user_id : string)
      (p : Pass) :
  pass_ok self user_id p ->
  Forall (fun q => is_call_to "/track" q = true ->
                   payload_keys q
                   = ["userId"; "itemId"; "interactionType"; "metadata"])
         (pass_calls p) /\
  List.length (filter is_rated (pass_block p))
  = count_calls (is_track_call "rate") (pass_calls p).
Proof.
  unfold pass_ok. intros H. inversion H; split;
    try reflexivity;
    repeat (constructor; [first [ discriminate | reflexivity ] |]);
    constructor.
Qed.

Lemma passes_tracking_payload (self : RecommendationProbe)
      (users : list string) (passes : list Pass) :
  Forall2 (pass_ok self) users passes ->
  Forall (fun q => is_call_to "/track" q = true ->
                   payload_keys q
                   = ["userId"; "itemId"; "interactionType"; "metadata"])
         (List.concat (map pass_calls passes)) /\
  List.length (filter is_rated (List.concat (map pass_block passes)))
  = count_calls (is_track_call "rate") (List.concat (map pass_calls passes)).
Proof.
  induction 1 as [| u p us ps Hp _ [IH1 IH2]]; simpl.
  - split; [constructor | reflexivity].
  - destruct (pass_tracking_payload self u p Hp) as [H1 H2]. split.
    + apply Forall_app. split; assumption.
    + rewrite filter_app, length_app, count_calls_app, H2, IH2. reflexivity.
Qed.

(** X8. A rating is recorded in the report but never sent.  In every
    cycle that returns, each tracking request carries a JSON object
    with exactly the keys userId, itemId, interactionType and metadata,
    so no rating; and yet the report holds one rated entry for each
    "rate" request sent. *)
Theorem rating_is_recorded_not_sent
        (self : RecommendationProbe) (w w' : World) (r : Report.t) :
  run_probe_cycle self w = (Ok r, w') ->
  exists calls draws,
    moved calls draws w w' /\
    (forall q, In q calls -> is_call_to "/track" q = true ->
               payload_keys q
               = ["userId"; "itemId"; "interactionType"; "metadata"]) /\
    List.length (filter is_rated (Report.interactions r))
    = count_calls (is_track_call "rate") calls.
Proof.
  intros Hrun.
  destruct (run_probe_cycle_inv self w r w' Hrun)
    as [(_ & _ & Hints & _ & _ & Hmoved)
       | (users & passes & calls & Hshape)].
  - exists [health_request self], 0%nat. split; [exact Hmoved |].
    rewrite Hints. split; [| reflexivity].
    intros q [<- | []] H. discriminate H.
  - destruct Hshape as (_ & _ & _ & Hall & _ & Hints
                        & (cu & _ & Hcalls) & (draws & Hmoved) & _).
    destruct (passes_tracking_payload self users passes Hall) as [H1 H2].
    exists calls, draws. split; [exact Hmoved |]. rewrite Hcalls, Hints. split.
    + intros q [<- | Hq] Ht; [discriminate Ht |].
      apply in_app_or in Hq. destruct Hq as [Hq | [<- | []]].
      * rewrite Forall_forall in H1. exact (H1 q Hq Ht).
      * discriminate Ht.
    + rewrite H2.
      change (health_request self
              :: List.concat (map pass_calls passes)
              ++ [compare_request self cu])
        with ([health_request self]
              ++ List.concat (map pass_calls passes)
              ++ [compare_request self cu]).
      rewrite !count_calls_app, !count_calls_single.
      change (is_track_call "rate" (health_request self)) with false.
      change (is_track_call "rate" (compare_request self cu)) with false.
      simpl. lia.
Qed.

Lemma rating_is_recorded_not_sent_witness :
  exists r w',
    run_probe_cycle local_probe
                    (world_of steady_service (fun _ => 9007199254740991%N))
    = (Ok r, w') /\
    List.length (filter is_rated (Report.interactions r)) = 5%nat /\
    count_calls (is_track_call "rate") (trace w') = 5%nat.
Proof.
  destruct (run_probe_cycle local_probe
              (world_of steady_service (fun _ => 9007199254740991%N)))
    as [[r | e] w'] eqn:Hrun.
  - destruct (rating_is_recorded_not_sent local_probe _ w' r Hrun)
      as (calls & draws & (Htrace & _) & _ & Hcount).
    simpl in Htrace. rewrite <- Htrace in Hcount.
    exists r, w'. split; [reflexivity |].
    assert (H5 : List.length (filter is_rated (Report.interactions r)) = 5%nat).
    { pose proof Hrun as H. vm_compute in H. inversion H. reflexivity. }
    split; [exact H5 | rewrite <- Hcount; exact H5].
  - vm_compute in Hrun. discriminate.
Defined.

(* ================================================================== *)
(** ** When a cycle returns *)

Lemma keeps_ret {A} (a : A) : keeps_service (ret a).
Proof. intros w o w' H. inversion H. reflexivity. Qed.

Lemma keeps_raise {A} (e : Exn) : keeps_service (@raise A e).
Proof. intros w o w' H. inversion H. reflexivity. Qed.

Lemma keeps_lift {A} (x : outcome A) : keeps_service (lift x).
Proof. intros w o w' H. inversion H. reflexivity. Qed.

Lemma keeps_bind {A B} (m : M A) (k : A -> M B) :
  keeps_service m -> (forall a, keeps_service (k a)) -> keeps_service (bind m k).
Proof.
  intros Hm Hk w o w'. unfold bind.
  destruct (m w) as [[a | e] w1] eqn:Hmw; intros H.
  - rewrite (Hk a _ _ _ H). exact (Hm _ _ _ Hmw).
  - inversion H; subst. exact (Hm _ _ _ Hmw).
Qed.

Lemma keeps_try {A} (body : M A) (handler : Exn -> M A) :
  keeps_service body -> (forall e, keeps_service (handler e)) ->
  keeps_service (try_except body handler).
Proof.
  intros Hb Hh w o w'. unfold try_except.
  destruct (body w) as [[a | e] w1] eqn:Hbw; intros H.
  - inversion H; subst. exact (Hb _ _ _ Hbw).
  - rewrite (Hh e _ _ _ H). exact (Hb _ _ _ Hbw).
Qed.

Lemma keeps_send (r : Request) : keeps_service (send r).
Proof.
  intros w o w'. unfold send.
  destruct (answer w r); intros H; inversion H; reflexivity.
Qed.

Lemma keeps_time : keeps_service time_time.
Proof. intros w o w' H. inversion H. reflexivity. Qed.

Lemma keeps_wall : keeps_service datetime_now_isoformat.
Proof. intros w o w' H. inversion H. reflexivity. Qed.

Lemma keeps_draw : keeps_service draw.
Proof. intros w o w' H. inversion H. reflexivity. Qed.

Lemma keeps_raise_for_status (r : Response) : keeps_service (raise_for_status r).
Proof.
  unfold raise_for_status.
  destruct ((400 <=? status_code r)%Z && (status_code r <? 600)%Z);
    [apply keeps_raise | apply keeps_ret].
Qed.

Lemma keeps_response_json (r : Response) : keeps_service (response_json r).
Proof.
  unfold response_json.
  destruct (body r); [apply keeps_ret | apply keeps_raise].
Qed.

Lemma keeps_random_choice {A} (seq : list A) : keeps_service (random_choice seq).
Proof.
  unfold random_choice. destruct seq; [apply keeps_raise |].
  apply keeps_bind; [apply keeps_draw | intros r; apply keeps_ret].
Qed.

(** Go through a computation built from the primitives. *)
Ltac keeps :=
  repeat first
    [ apply keeps_ret | apply keeps_raise | apply keeps_lift
    | apply keeps_send | apply keeps_time | apply keeps_wall
    | apply keeps_draw | apply keeps_raise_for_status
    | apply keeps_response_json | apply keeps_random_choice
    | apply keeps_bind; [| intros ?]
    | apply keeps_try; [| intros ?]
    | match goal with
      | |- keeps_service (if ?c then _ else _) => destruct c
      | |- keeps_service (match ?x with _ => _ end) => destruct x
      end ].

Lemma keeps_sample_from {A} (k : nat) (pool : list A) :
  keeps_service (sample_from pool k).
Proof.
  revert pool. induction k as [| k IH]; intros pool; simpl.
  - apply keeps_ret.
  - destruct pool as [| x pool']; [apply keeps_ret |].
    apply keeps_bind; [apply keeps_draw | intros r].
    apply keeps_bind; [apply IH | intros rest]. apply keeps_ret.
Qed.

Lemma keeps_random_sample {A} (population : list A) (k : nat) :
  keeps_service (random_sample population k).
Proof.
  unfold random_sample.
  destruct (List.length population <? k)%nat;
    [apply keeps_raise | apply keeps_sample_from].
Qed.

Section Returning.

Variable self : RecommendationProbe.

Lemma keeps_get_recommendations user_id options :
  keeps_service (get_recommendations self user_id options).
Proof.
  unfold get_recommendations, session_post.
  keeps.
Qed.

Lemma keeps_track_interaction user_id item_id kind :
  keeps_service (track_interaction self user_id item_id kind).
Proof.
  unfold track_interaction, session_post.
  keeps.
Qed.

Lemma keeps_track_some_interactions user_id res interactions :
  keeps_service (track_some_interactions self user_id res interactions).
Proof.
  unfold track_some_interactions, simulate_rating, random_random,
    random_randint.
  keeps.
Qed.

Lemma keeps_probe_user user_id st : keeps_service (probe_user self user_id st).
Proof.
  unfold probe_user.
  keeps. apply keeps_track_some_interactions.
Qed.

(** With a service that lists objects and a non-empty item pool, one
    pass of the loop returns. *)
Lemma probe_user_returns user_id st w :
  lists_objects (server w) ->
  test_items self <> [] ->
  exists st' w', probe_user self user_id st w = (Ok st', w').
Proof.
  intros Hservice Hpool. unfold probe_user.
  rewrite (bind_run _ _ _ _ _ (random_choice_run _ _ w)). cbv beta.
  rewrite (bind_run _ _ _ _ _ (random_choice_run _ _ (tick_rand w))). cbv beta.
  set (wb := tick_rand (tick_rand w)).
  match goal with
  | |- context [get_recommendations self user_id ?o] => set (options := o)
  end.
  destruct (get_recommendations_run self user_id options wb)
    as (res & wc & Hrec & _).
  rewrite (bind_run _ _ _ _ _ Hrec). cbv beta.
  assert (Hblock : exists out wd,
             track_some_interactions self user_id res (snd st) wc
             = (Ok out, wd)).
  { destruct (is_personalized (Entry.mk user_id res)) eqn:Hpers.
    - pose proof (get_recommendations_cases self _ _ _ _ _ Hrec) as Hcases.
      cbv zeta in Hcases.
      destruct Hcases as [(resp & fields & count & (Ho & _ & Hb) & Hlen & ->)
                         | ((message & ->) & _)]; [| discriminate Hpers].
      assert (Hcount : (0 < count)%nat).
      { unfold is_personalized in Hpers. apply andb_prop in Hpers.
        destruct Hpers as [_ Hc]. apply Nat.ltb_lt in Hc. exact Hc. }
      unfold field_or in Hlen.
      destruct (py_lookup fields "recommendations") as [v |] eqn:Hv.
      + destruct (Hservice (List.length (trace wb))
                           (recommend_request self user_id options)
                           resp fields v count eq_refl Ho Hb Hv Hlen Hcount)
          as (first & rest & ->).
        destruct (test_items self) as [| pool_head pool_tail] eqn:Hitems;
          [contradiction |].
        destruct (track_some_interactions_run self user_id _ (snd st) wc
                    fields first rest pool_head pool_tail
                    Hpers eq_refl Hv Hitems) as (viewed & _ & Heq).
        rewrite Heq.
        match goal with
        | |- context [simulate_rating self ?u ?i ?l ?w1] =>
            destruct (simulate_rating_run self u i l w1)
              as [[_ Hrun] | [_ (rating & rated & w2 & _ & Hrun & _)]]
        end; rewrite Hrun; eexists; eexists; reflexivity.
      + simpl in Hlen. inversion Hlen; subst. lia.
    - rewrite (track_some_interactions_skip self _ _ _ _ Hpers).
      eexists. eexists. reflexivity. }
  destruct Hblock as (out & wd & Hout).
  rewrite (bind_run _ _ _ _ _ Hout). cbv beta.
  eexists. eexists. reflexivity.
Qed.

Lemma probe_users_returns users st w :
  lists_objects (server w) ->
  test_items self <> [] ->
  exists st' w', probe_users self users st w = (Ok st', w').
Proof.
  intros Hservice Hpool. revert st w Hservice.
  induction users as [| user_id rest IH]; intros st w Hservice.
  - exists st, w. reflexivity.
  - destruct (probe_user_returns user_id st w Hservice Hpool)
      as (st1 & w1 & Hone).
    assert (Hsame : server w1 = server w)
      by exact (keeps_probe_user user_id st _ _ _ Hone).
    destruct (IH st1 w1) as (st' & w' & Hrest).
    + rewrite Hsame. exact Hservice.
    + exists st', w'. simpl. rewrite (bind_run _ _ _ _ _ Hone). exact Hrest.
Qed.

End Returning.

(** X9. A cycle returns a report whenever both pools are non-empty and
    the service, each time [/recommend] answers with something of
    positive length under 'recommendations', answers with a list whose
    first element is an object.  What the other endpoints do, and which
    requests fail, does not matter. *)
Theorem cycle_returns_when_service_lists_objects
        (self : RecommendationProbe) (w : World) :
  test_users self <> [] ->
  test_items self <> [] ->
  lists_objects (server w) ->
  exists r w', run_probe_cycle self w = (Ok r, w').
Proof.
  intros Husers Hitems Hservice. unfold run_probe_cycle.
  assert (Ht : time_time w = (Ok (clock w (clock_reads w)), tick_clock w))
    by reflexivity.
  rewrite (bind_run _ _ _ _ _ Ht). cbv beta.
  assert (Hd : datetime_now_isoformat (tick_clock w)
               = (Ok (wall w (wall_reads w)), tick_wall (tick_clock w)))
    by reflexivity.
  rewrite (bind_run _ _ _ _ _ Hd). cbv beta.
  destruct (health_check_run self (tick_wall (tick_clock w))) as (h & Hh).
  rewrite (bind_run _ _ _ _ _ Hh). cbv beta.
  set (w0 := with_call (health_request self) (tick_wall (tick_clock w))).
  destruct (negb (Health.status h =? "healthy")).
  - eexists. eexists. reflexivity.
  - destruct (random_sample_run (test_users self) w0)
      as (sampled & w1 & Hsample).
    rewrite (bind_run _ _ _ _ _ Hsample). cbv beta.
    destruct (random_sample_inv _ _ _ _ _ Hsample) as (Hlen & _).
    assert (Hs1 : server w1 = server w)
      by exact (keeps_random_sample _ _ _ _ _ Hsample).
    destruct (probe_users_returns self sampled ([], []) w1) as (st & w2 & Hloop).
    { rewrite Hs1. exact Hservice. }
    { exact Hitems. }
    rewrite (bind_run _ _ _ _ _ Hloop). cbv beta.
    destruct sampled as [| u sampled'].
    { exfalso. simpl in Hlen.
      destruct (test_users self); [contradiction | simpl in Hlen; lia]. }
    rewrite (bind_run _ _ _ _ _ (random_choice_run u sampled' w2)). cbv beta.
    match goal with
    | |- context [compare_models self ?cu] =>
        destruct (compare_models_run self cu (tick_rand w2)) as (c & Hc)
    end.
    rewrite (bind_run _ _ _ _ _ Hc). cbv beta.
    match goal with
    | |- context [bind time_time ?k ?wx] =>
        assert (Ht2 : time_time wx = (Ok (clock wx (clock_reads wx)),
                                      tick_clock wx)) by reflexivity;
        rewrite (bind_run _ _ _ _ _ Ht2); cbv beta
    end.
    unfold bind at 1. unfold lift. rewrite make_summary_run.
    eexists. eexists. reflexivity.
Qed.

Lemma steady_service_lists_objects : lists_objects steady_service.
Proof.
  intros n request resp fields v count Hpath Hans Hbody Hv Hlen Hcount.
  unfold steady_service in Hans. rewrite Hpath in Hans. simpl in Hans.
  inversion Hans; subst. simpl in Hbody. inversion Hbody; subst.
  simpl in Hv. inversion Hv; subst. eexists. eexists. reflexivity.
Qed.

Lemma cycle_returns_when_service_lists_objects_witness :
  exists r w',
    run_probe_cycle local_probe (world_of steady_service (fun _ => 0%N))
    = (Ok r, w').
Proof.
  apply (cycle_returns_when_service_lists_objects
           local_probe (world_of steady_service (fun _ => 0%N))).
  - simpl. discriminate.
  - simpl. discriminate.
  - exact steady_service_lists_objects.
Defined.

(* ================================================================== *)
(** ** When a cycle raises *)

Lemma bind_Raise_inv {A B} (m : M A) (k : A -> M B) w e w' :
  bind m k w = (Raise e, w') ->
  m w = (Raise e, w') \/
  exists a w1, m w = (Ok a, w1) /\ k a w1 = (Raise e, w').
Proof.
  unfold bind. destruct (m w) as [[a | e0] w1]; intros H.
  - right. exists a, w1. split; [reflexivity | exact H].
  - left. inversion H. reflexivity.
Qed.

Lemma py_first_sized_fault (v : json) (count : nat) (e : Exn) :
  py_len v = Ok count -> py_truthy v = true -> py_first v = Raise e ->
  e = mkExn "KeyError" "0".
Proof.
  destruct v as [| b | z | q | s | items | fields]; simpl; try discriminate.
  - destruct s; discriminate.
  - destruct items; discriminate.
  - intros _ _ H. inversion H. reflexivity.
Qed.

Section Raising.

Variable self : RecommendationProbe.

(** When the tracking block raises, it has sent nothing and drawn
    nothing, and the exception is one of the three faults. *)
Lemma track_some_interactions_Raise_inv user_id res interactions w e w' :
  counted_from_data res ->
  track_some_interactions self user_id res interactions w = (Raise e, w') ->
  cycle_fault e /\ w' = w.
Proof.
  intros Hcounted. unfold track_some_interactions.
  destruct ((Rec.status res =? "success")
            && (0 <? Rec.recommendations_count res)%nat) eqn:Hcond;
    [| discriminate].
  apply andb_prop in Hcond. destruct Hcond as [Hs Hc].
  apply String.eqb_eq in Hs. apply Nat.ltb_lt in Hc.
  destruct (Hcounted Hs) as (fields & Hdata & Hlen).
  assert (Htruthy := py_len_positive_truthy _ _ Hlen Hc).
  assert (H1 : lift (rec_data res) w = (Ok (JObj fields), w))
    by (unfold lift, rec_data; rewrite Hdata; reflexivity).
  assert (H2 : lift (py_get (JObj fields) "recommendations" (JArr [])) w
               = (Ok (field_or fields "recommendations" (JArr [])), w))
    by (unfold lift; rewrite py_get_object; reflexivity).
  rewrite (bind_run _ _ _ _ _ H1). cbv beta.
  rewrite (bind_run _ _ _ _ _ H2). cbv beta.
  rewrite Htruthy.
  set (recs := field_or fields "recommendations" (JArr [])) in *.
  intros H. apply bind_Raise_inv in H.
  destruct H as [H | (first & w1 & Hfirst & H)].
  { unfold lift in H.
    assert (Hf : py_first recs = Raise e) by congruence.
    assert (Hw : w' = w) by congruence.
    split; [| exact Hw].
    right. left. exact (py_first_sized_fault recs _ e Hlen Htruthy Hf). }
  unfold lift in Hfirst.
  assert (Hw1 : w1 = w) by congruence. subst w1. clear Hfirst.
  apply bind_Raise_inv in H.
  destruct H as [H | ([] & w1 & Hget & H)].
  { unfold lift in H.
    assert (Hf : py_has_get first = Raise e) by congruence.
    assert (Hw : w' = w) by congruence.
    split; [| exact Hw].
    right. right. exists first. exact Hf. }
  unfold lift in Hget.
  assert (Hobj : py_has_get first = Ok tt) by congruence.
  assert (Hw1 : w1 = w) by congruence. subst w1. clear Hget.
  destruct first as [| b | z | q | s | items | item]; try discriminate Hobj.
  apply bind_Raise_inv in H.
  destruct H as [H | (fallback & w1 & Hch & H)].
  { destruct (test_items self) as [| x pool].
    - unfold random_choice, raise in H. inversion H; subst.
      split; [left; reflexivity | reflexivity].
    - rewrite random_choice_run in H. discriminate H. }
  exfalso.
  apply random_choice_inv in Hch. destruct Hch as [_ ->].
  assert (H6 : lift (py_get (JObj item) "itemId" (JStr fallback)) (tick_rand w)
               = (Ok (field_or item "itemId" (JStr fallback)), tick_rand w))
    by (unfold lift; rewrite py_get_object; reflexivity).
  rewrite (bind_run _ _ _ _ _ H6) in H. cbv beta in H.
  match type of H with
  | context [track_interaction self ?u ?i ?k] =>
      destruct (track_interaction_run self u i k (tick_rand w)) as (t & Ht)
  end.
  rewrite (bind_run _ _ _ _ _ Ht) in H. cbv beta in H.
  match type of H with
  | simulate_rating self ?u ?i ?l ?w1 = _ =>
      destruct (simulate_rating_run self u i l w1)
        as [[_ Hrun] | [_ (rating & rated & w2 & _ & Hrun & _)]]
  end; rewrite Hrun in H; discriminate H.
Qed.

Lemma probe_user_Raise_inv user_id st w e w' :
  probe_user self user_id st w = (Raise e, w') -> cycle_fault e.
Proof.
  unfold probe_user.
  rewrite (bind_run _ _ _ _ _ (random_choice_run _ _ w)). cbv beta.
  rewrite (bind_run _ _ _ _ _ (random_choice_run _ _ (tick_rand w))). cbv beta.
  match goal with
  | |- context [get_recommendations self user_id ?o ] =>
      destruct (get_recommendations_run self user_id o (tick_rand (tick_rand w)))
        as (res & wc & Hrec & _)
  end.
  rewrite (bind_run _ _ _ _ _ Hrec). cbv beta.
  intros H. apply bind_Raise_inv in H.
  destruct H as [H | (out & wd & _ & H)]; [| discriminate H].
  assert (Hcounted := get_recommendations_counted _ _ _ _ _ _ Hrec).
  exact (proj1 (track_some_interactions_Raise_inv _ _ _ _ _ _ Hcounted H)).
Qed.

Lemma probe_users_Raise_inv users st w e w' :
  probe_users self users st w = (Raise e, w') -> cycle_fault e.
Proof.
  revert st w. induction users as [| user_id rest IH]; intros st w H.
  - discriminate H.
  - simpl in H. apply bind_Raise_inv in H.
    destruct H as [H | (st1 & w1 & _ & H)].
    + exact (probe_user_Raise_inv _ _ _ _ _ H).
    + exact (IH _ _ H).
Qed.

End Raising.

(** X10. No failure of the service makes a cycle raise.  When
    [run_probe_cycle] raises, the health check had returned 'healthy'
    and the exception is one of three: the [IndexError] of choosing from
    an empty pool, the [KeyError] of taking element 0 of a
    'recommendations' that is a dict, or the [AttributeError] of a first
    recommendation that is not an object. *)
Theorem cycle_raises_only_its_own_faults
        (self : RecommendationProbe) (w w' : World) (e : Exn) :
  run_probe_cycle self w = (Raise e, w') ->
  cycle_fault e /\
  exists h w0,
    health_check self (tick_wall (tick_clock w)) = (Ok h, w0) /\
    Health.status h = "healthy".
Proof.
  unfold run_probe_cycle.
  assert (Ht : time_time w = (Ok (clock w (clock_reads w)), tick_clock w))
    by reflexivity.
  rewrite (bind_run _ _ _ _ _ Ht). cbv beta.
  assert (Hd : datetime_now_isoformat (tick_clock w)
               = (Ok (wall w (wall_reads w)), tick_wall (tick_clock w)))
    by reflexivity.
  rewrite (bind_run _ _ _ _ _ Hd). cbv beta.
  destruct (health_check_run self (tick_wall (tick_clock w))) as (h & Hh).
  rewrite (bind_run _ _ _ _ _ Hh). cbv beta.
  set (w0 := with_call (health_request self) (tick_wall (tick_clock w))) in *.
  destruct (String.eqb_spec (Health.status h) "healthy") as [Hok | _];
    cbn [negb]; [| discriminate].
  intros H. split; [| exists h, w0; split; [exact Hh | exact Hok]].
  destruct (random_sample_run (test_users self) w0)
    as (sampled & w1 & Hsample).
  rewrite (bind_run _ _ _ _ _ Hsample) in H. cbv beta in H.
  apply bind_Raise_inv in H. destruct H as [H | (st & w2 & _ & H)].
  { exact (probe_users_Raise_inv self _ _ _ _ _ H). }
  apply bind_Raise_inv in H. destruct H as [H | (cu & w3 & _ & H)].
  { destruct sampled as [| u sampled'].
    - unfold random_choice, raise in H. inversion H. left. reflexivity.
    - rewrite random_choice_run in H. discriminate H. }
  exfalso.
  destruct (compare_models_run self cu w3) as (c & Hc).
  rewrite (bind_run _ _ _ _ _ Hc) in H. cbv beta in H.
  unfold bind, time_time, lift, ret in H.
  rewrite make_summary_run in H. discriminate H.
Qed.

Lemma cycle_raises_only_its_own_faults_witness :
  exists e w',
    run_probe_cycle local_probe (world_of bare_ids_service (fun _ => 0%N))
    = (Raise e, w') /\
    exn_class e = "AttributeError" /\
    cycle_fault e.
Proof.
  destruct (run_probe_cycle local_probe
              (world_of bare_ids_service (fun _ => 0%N)))
    as [[r | e] w'] eqn:Hrun.
  - vm_compute in Hrun. discriminate.
  - exists e, w'. split; [reflexivity |]. split.
    + pose proof Hrun as H. vm_compute in H. inversion H. reflexivity.
    + exact (proj1 (cycle_raises_only_its_own_faults local_probe _ w' e Hrun)).
Defined.

(** X11. With an empty user pool a cycle that passes the health gate
    never returns: nothing is sampled, no user is probed, and choosing
    the user of the model comparison raises [IndexError].  The world
    is left as the health check left it. *)
Theorem empty_user_pool_raises
        (self : RecommendationProbe) (w w0 : World) (h : Health.t) :
  test_users self = [] ->
  health_check self (tick_wall (tick_clock w)) = (Ok h, w0) ->
  Health.status h = "healthy" ->
  run_probe_cycle self w
  = (Raise (mkExn "IndexError" "Cannot choose from an empty sequence"), w0).
Proof.
  intros Hempty Hh Hok. unfold run_probe_cycle.
  assert (Ht : time_time w = (Ok (clock w (clock_reads w)), tick_clock w))
    by reflexivity.
  rewrite (bind_run _ _ _ _ _ Ht). cbv beta.
  assert (Hd : datetime_now_isoformat (tick_clock w)
               = (Ok (wall w (wall_reads w)), tick_wall (tick_clock w)))
    by reflexivity.
  rewrite (bind_run _ _ _ _ _ Hd). cbv beta.
  rewrite (bind_run _ _ _ _ _ Hh). cbv beta.
  rewrite Hok, Hempty. reflexivity.
Qed.

Lemma empty_user_pool_raises_witness :
  exists w0,
    run_probe_cycle no_users_probe (world_of steady_service (fun _ => 0%N))
    = (Raise (mkExn "IndexError" "Cannot choose from an empty sequence"), w0) /\
    map req_path (trace w0) = ["/health"].
Proof.
  pose (w := world_of steady_service (fun _ => 0%N)).
  pose (out := health_check no_users_probe (tick_wall (tick_clock w))).
  pose (h := {| Health.status := "healthy";
                Health.response_time := Some (1 # 4);
                Health.data := Some (JObj [("status", JStr "ok")]);
                Health.error := None |}).
  assert (Hh : health_check no_users_probe (tick_wall (tick_clock w))
               = (Ok h, snd out)) by reflexivity.
  exists (snd out). split.
  - exact (empty_user_pool_raises no_users_probe w (snd out) h
             eq_refl Hh eq_refl).
  - reflexivity.
Defined.

(* ================================================================== *)
(** ** The results of a report *)

Section Results.

Variable self : RecommendationProbe.

Lemma get_recommendations_built user_id options w res w' :
  get_recommendations self user_id options w = (Ok res, w') ->
  built_result res.
Proof.
  intros Hrun.
  pose proof (get_recommendations_cases self _ _ _ _ _ Hrun) as Hcases.
  cbv zeta in Hcases.
  destruct Hcases as [(resp & fields & count & _ & Hlen & ->)
                     | ((message & ->) & _)].
  - left. eexists. exists fields, count. split; [exact Hlen | reflexivity].
  - right. exists message. reflexivity.
Qed.

Lemma probe_user_entry user_id st w st' w' :
  probe_user self user_id st w = (Ok st', w') ->
  exists res, built_result res /\ fst st' = fst st ++ [Entry.mk user_id res].
Proof.
  unfold probe_user. intros H.
  apply bind_Ok_inv in H. destruct H as (location & wa & _ & H).
  apply bind_Ok_inv in H. destruct H as (timeOfDay & wb & _ & H).
  apply bind_Ok_inv in H. destruct H as (res & wc & Hrec & H).
  apply bind_Ok_inv in H. destruct H as (out & wd & _ & H).
  apply ret_Ok_inv in H. destruct H as [-> _].
  exists res. split; [| reflexivity].
  exact (get_recommendations_built _ _ _ _ _ Hrec).
Qed.

Lemma probe_users_entries users st w st' w' :
  Forall (fun e => built_result (Entry.result e)) (fst st) ->
  probe_users self users st w = (Ok st', w') ->
  Forall (fun e => built_result (Entry.result e)) (fst st').
Proof.
  revert st w. induction users as [| user_id rest IH]; intros st w Hst H.
  - simpl in H. apply ret_Ok_inv in H. destruct H as [-> _]. exact Hst.
  - simpl in H. apply bind_Ok_inv in H.
    destruct H as (st1 & w1 & Hone & Hrest).
    apply probe_user_entry in Hone. destruct Hone as (res & Hres & Hfst).
    apply (IH st1 w1); [| exact Hrest].
    rewrite Hfst. apply Forall_app. split; [exact Hst |].
    constructor; [exact Hres | constructor].
Qed.

Lemma cycle_entries w r w' :
  run_probe_cycle self w = (Ok r, w') ->
  Forall (fun e => built_result (Entry.result e)) (Report.recommendations r).
Proof.
  unfold run_probe_cycle. intros H.
  apply bind_Ok_inv in H. destruct H as (cycle_start & wa & _ & H).
  apply bind_Ok_inv in H. destruct H as (started & wb & _ & H).
  apply bind_Ok_inv in H. destruct H as (health & wc & _ & H).
  destruct (negb (Health.status health =? "healthy")).
  - apply ret_Ok_inv in H. destruct H as [-> _]. constructor.
  - apply bind_Ok_inv in H. destruct H as (sampled & wd & _ & H).
    apply bind_Ok_inv in H. destruct H as (st & we & Hloop & H).
    apply bind_Ok_inv in H. destruct H as (cu & wf & _ & H).
    apply bind_Ok_inv in H. destruct H as (c & wg & _ & H).
    apply bind_Ok_inv in H. destruct H as (cycle_end & wh & _ & H).
    apply bind_Ok_inv in H. destruct H as (summary & wi & _ & H).
    apply ret_Ok_inv in H. destruct H as [-> _].
    exact (probe_users_entries sampled ([], []) wd st we (Forall_nil _) Hloop).
Qed.

End Results.

(** X12. Every entry of a report's recommendations is of one of two
    shapes.  A 'success' entry has a response time, no error, a body
    that is a JSON object, and a count equal to the length of what that
    body holds under 'recommendations'; an 'error' entry has a message,
    no response time (None), no body and a count of 0.  So the entries
    that are not successes are exactly the errors. *)
Theorem report_entries_are_successes_or_errors
        (self : RecommendationProbe) (w w' : World) (r : Report.t) :
  run_probe_cycle self w = (Ok r, w') ->
  (forall e, In e (Report.recommendations r) ->
     let res := Entry.result e in
     (Rec.status res = "success" /\
      (exists t, Rec.response_time res = Some t) /\
      (exists fields,
          Rec.data res = Some (JObj fields) /\
          py_len (field_or fields "recommendations" (JArr []))
          = Ok (Rec.recommendations_count res)) /\
      Rec.error res = None) \/
     (Rec.status res = "error" /\
      Rec.response_time res = None /\
      Rec.recommendations_count res = 0%nat /\
      Rec.data res = None /\
      exists message, Rec.error res = Some message)) /\
  (List.length (filter is_success (Report.recommendations r))
   + List.length
       (filter (fun e => (Rec.status (Entry.result e) =? "error")%string)
               (Report.recommendations r))
   = List.length (Report.recommendations r))%nat.
Proof.
  intros Hrun. pose proof (cycle_entries self _ _ _ Hrun) as Hall. split.
  - intros e He res. rewrite Forall_forall in Hall.
    destruct (Hall e He) as [(t & fields & count & Hlen & Hres)
                            | (message & Hres)];
      fold res in Hres; rewrite Hres.
    + left. split; [reflexivity |]. split; [exists t; reflexivity |].
      split; [exists fields; split; [reflexivity | exact Hlen] | reflexivity].
    + right. repeat split. exists message. reflexivity.
  - induction Hall as [| e l He _ IH]; [reflexivity |].
    simpl. unfold is_success at 1.
    destruct He as [(t & fields & count & _ & ->) | (message & ->)];
      simpl; lia.
Qed.

Lemma report_entries_are_successes_or_errors_witness :
  exists r w',
    run_probe_cycle local_probe (world_of flaky_service (fun _ => 0%N))
    = (Ok r, w') /\
    List.length (filter is_success (Report.recommendations r)) = 1%nat /\
    List.length (filter (fun e => Rec.status (Entry.result e) =? "error")
                        (Report.recommendations r)) = 4%nat.
Proof.
  destruct (run_probe_cycle local_probe (world_of flaky_service (fun _ => 0%N)))
    as [[r | e] w'] eqn:Hrun.
  - destruct (report_entries_are_successes_or_errors local_probe _ w' r Hrun)
      as (_ & Hsum).
    assert (H1 : List.length (filter is_success (Report.recommendations r))
                 = 1%nat
                 /\ List.length (Report.recommendations r) = 5%nat).
    { pose proof Hrun as H. vm_compute in H. inversion H. split; reflexivity. }
    destruct H1 as [H1 H5]. rewrite H1, H5 in Hsum.
    exists r, w'. split; [reflexivity |]. split; [exact H1 | lia].
  - vm_compute in Hrun. discriminate.
Defined.

(* ================================================================== *)
(** ** A cycle in which every recommendation request failed *)

Lemma zero_over_count (n : nat) :
  (0 < n)%nat -> (n <= 5)%nat ->
  round64 (of_count 0 / of_count n) = Finite 0 /\
  match round64 (of_count n), Finite 0 with
  | Finite d, Finite a => round64 (a / d)
  | Finite _, Infinite s => Infinite s
  | Infinite _, Finite _ => Finite 0
  | _, _ => NotANumber
  end = Finite 0.
Proof.
  intros H0 H5.
  assert (Hcases : (n = 1 \/ n = 2 \/ n = 3 \/ n = 4 \/ n = 5)%nat) by lia.
  destruct Hcases as [-> | [-> | [-> | [-> | ->]]]];
    split; vm_compute; reflexivity.
Qed.

Lemma failed_entries_count_for_nothing (l : list Entry.t) :
  Forall (fun e => built_result (Entry.result e)) l ->
  (forall e, In e l -> Rec.status (Entry.result e) <> "success") ->
  count_if is_success l = 0%nat /\
  count_if is_personalized l = 0%nat /\
  truthy_response_times l = [].
Proof.
  induction 1 as [| e l He _ IH]; intros Hall.
  - repeat split.
  - destruct IH as (I1 & I2 & I3);
      [intros x Hx; apply Hall; right; exact Hx |].
    assert (Hne := Hall e (or_introl eq_refl)).
    destruct He as [(t & fields & count & _ & Hres) | (message & Hres)].
    + exfalso. apply Hne. rewrite Hres. reflexivity.
    + unfold count_if in *. simpl.
      unfold is_personalized, is_success. rewrite Hres. simpl.
      repeat split; assumption.
Qed.

(** X13. When every recommendation request of a completed cycle
    failed, the summary counts no success and no personalized response
    and reports a personalization rate and an average response time of
    0.0: with nothing to sum the average is zero, not a division
    fault. *)
Theorem all_failed_cycle_reports_zeros
        (self : RecommendationProbe) (w w' : World) (r : Report.t) :
  run_probe_cycle self w = (Ok r, w') ->
  Summary.status (Report.summary r) = "completed" ->
  (forall e, In e (Report.recommendations r) ->
             Rec.status (Entry.result e) <> "success") ->
  Summary.successful_recommendations (Report.summary r) = Some 0%nat /\
  Summary.personalized_responses (Report.summary r) = Some 0%nat /\
  Summary.personalization_rate (Report.summary r) = Some (Finite 0) /\
  Summary.avg_response_time (Report.summary r) = Some (Finite 0).
Proof.
  intros Hrun Hdone Hall.
  destruct (run_probe_cycle_inv self w r w' Hrun)
    as [Hfailed | (users & passes & calls & Hshape)].
  - exfalso. exact (failed_not_completed _ _ _ _ Hfailed Hdone).
  - destruct (completed_summary _ _ _ _ _ _ _ Hshape) as (Hlen & ct & Hsum).
    rewrite make_summary_run in Hsum. inversion Hsum as [Hs]. clear Hsum.
    cbn [Summary.successful_recommendations Summary.personalized_responses
         Summary.personalization_rate Summary.avg_response_time].
    destruct (failed_entries_count_for_nothing
                _ (cycle_entries self _ _ _ Hrun) Hall) as (C1 & C2 & C3).
    rewrite C1, C2, C3.
    split; [reflexivity |]. split; [reflexivity |].
    destruct (Report.recommendations r) as [| e rest] eqn:Hrecs.
    + split; reflexivity.
    + destruct (zero_over_count (List.length (e :: rest))) as [Z1 Z2];
        [simpl; lia | lia |].
      change (py_sum []) with (Finite 0). rewrite Z1, Z2. split; reflexivity.
Qed.

Lemma all_failed_cycle_reports_zeros_witness :
  exists r w',
    run_probe_cycle local_probe (world_of recommend_down_service (fun _ => 0%N))
    = (Ok r, w') /\
    List.length (Report.recommendations r) = 5%nat /\
    Summary.personalization_rate (Report.summary r) = Some (Finite 0) /\
    Summary.avg_response_time (Report.summary r) = Some (Finite 0).
Proof.
  destruct (run_probe_cycle local_probe
              (world_of recommend_down_service (fun _ => 0%N)))
    as [[r | e] w'] eqn:Hrun.
  - assert (Hfacts : Summary.status (Report.summary r) = "completed"
                     /\ List.length (Report.recommendations r) = 5%nat
                     /\ forallb (fun e => negb (Rec.status (Entry.result e)
                                                =? "success"))
                                (Report.recommendations r) = true).
    { pose proof Hrun as H. vm_compute in H. inversion H. repeat split. }
    destruct Hfacts as (Hdone & H5 & Hall).
    rewrite forallb_forall in Hall.
    destruct (all_failed_cycle_reports_zeros local_probe _ w' r Hrun Hdone)
      as (_ & _ & Hrate & Havg).
    { intros e0 He0 Hs. specialize (Hall e0 He0).
      rewrite Hs in Hall. discriminate Hall. }
    exists r, w'. split; [reflexivity |].
    split; [exact H5 |]. split; assumption.
  - vm_compute in Hrun. discriminate.
Defined.
